(** * Attenda: attendance store, statistics and calendar projection

    A shallow embedding of the attendance tracker's core logic
    (the [App] component and [types.ts]) together with the properties its
    specification states about it.

    Modelling conventions.
    - A JavaScript [number] that only ever holds a count is a [Z]; the
      counters are bounded by the array length, so no rounding occurs.
    - [percentage] is the one quantity produced by a division.  The record
      [Stats] keeps the exact rational [Q] the expression denotes, which is
      what the statements about order and thresholds are about; the number
      the program actually stores, rounded after the division and again
      after the multiplication, is [Statistics.percentageNumber], a binary64
      value computed with the operations of [SpecFloat].
    - The [AttendanceStatus] enum is a string enum; at run time a status is
      a string (after a reload from storage it can be any string), so the
      status field is a [string] compared against the five enum values.
    - Optional fields ([location?], [isOverride?], ...) are [option]s, with
      [None] for [undefined]. *)

From Stdlib Require Import ZArith QArith Lia Lqa.
From Stdlib Require SpecFloat.
From stdpp Require Import base list strings.

Local Open Scope Z_scope.

(** ** Data model ([types.ts]) *)

Definition AttendanceStatus := string.

Definition PENDING : AttendanceStatus := "PENDING".
Definition ATTENDED : AttendanceStatus := "ATTENDED".
Definition ABSENT : AttendanceStatus := "ABSENT".
Definition SUSPENDED : AttendanceStatus := "SUSPENDED".
Definition EXCUSED : AttendanceStatus := "EXCUSED".

(** What a date-typed slot of an event holds at run time.  A [Date] object
    carries a time value in milliseconds since the epoch, or no time value
    at all (an invalid date).  After a trip through JSON the slot may hold a
    plain string or [null] instead. *)
Inductive DateSlot : Type :=
  | DateObj (t : option Z)
  | DateStr (s : string)
  | DateNull.

Record CalendarEvent : Type := mkEvent {
  id : string;
  uid : string;
  title : string;
  start : DateSlot;
  end_ : DateSlot;
  location : option string;
  description : option string;
  status : AttendanceStatus;
  overrideTitle : option string;
  isOverride : option bool;
  recurrenceId : option string;
  originalDate : option DateSlot
}.

Record Stats : Type := mkStats {
  total : Z;
  attended : Z;
  absent : Z;
  suspended : Z;
  excused : Z;
  pending : Z;
  percentage : Q;
  neededFor75 : Z
}.

(** ** JavaScript numbers that are not integers

    A [number] is an IEEE 754 binary64 value: 53 bits of precision, largest
    exponent 1024, rounding to nearest with ties to even. *)

Module Double.

Definition t : Type := SpecFloat.spec_float.

Definition prec : Z := 53.
Definition emax : Z := 1024.

(** The number that holds the integer [z] (exactly, below 2^53). *)
Definition ofInteger (z : Z) : t := SpecFloat.binary_normalize prec emax z 0 false.

(** The operators [/] and [*]. *)
Definition div (x y : t) : t := SpecFloat.SFdiv prec emax x y.
Definition mul (x y : t) : t := SpecFloat.SFmul prec emax x y.

(** The rational a number stands for; none for NaN and the infinities. *)
Definition toQ (x : t) : option Q :=
  match x with
  | SpecFloat.S754_zero _ => Some 0%Q
  | SpecFloat.S754_finite s m e =>
      let n := if s then Zneg m else Zpos m in
      Some (match e with
            | Zneg k => Qmake n (2 ^ k)
            | _ => inject_Z (n * 2 ^ e)
            end)
  | _ => None
  end.

End Double.

(** ** Statistics engine ([calculateStats]) *)

Module Statistics.

(** The five mutable counters of [calculateStats] ([total] is only assigned
    after the loop). *)
Record Counters : Type := mkCounters {
  c_attended : Z;
  c_absent : Z;
  c_suspended : Z;
  c_excused : Z;
  c_pending : Z
}.

Definition zero : Counters := mkCounters 0 0 0 0 0.

(** Body of the [forEach] callback: two early returns, then a three-way
    [if]/[else if]/[else]. *)
Definition tally (c : Counters) (e : CalendarEvent) : Counters :=
  if String.eqb (status e) SUSPENDED then
    mkCounters (c_attended c) (c_absent c) (c_suspended c + 1) (c_excused c) (c_pending c)
  else if String.eqb (status e) EXCUSED then
    mkCounters (c_attended c) (c_absent c) (c_suspended c) (c_excused c + 1) (c_pending c)
  else if String.eqb (status e) ATTENDED then
    mkCounters (c_attended c + 1) (c_absent c) (c_suspended c) (c_excused c) (c_pending c)
  else if String.eqb (status e) ABSENT then
    mkCounters (c_attended c) (c_absent c + 1) (c_suspended c) (c_excused c) (c_pending c)
  else
    mkCounters (c_attended c) (c_absent c) (c_suspended c) (c_excused c) (c_pending c + 1).

Definition countAll (filteredEvents : list CalendarEvent) : Counters :=
  fold_left tally filteredEvents zero.

(** The part of [calculateStats] after the loop. *)
Definition summarize (c : Counters) : Stats :=
  let total := c_attended c + c_absent c in
  let percentage :=
    if total =? 0 then 0%Q
    else (inject_Z (c_attended c) / inject_Z total * 100)%Q in
  let neededRaw := 3 * total - 4 * c_attended c in
  let neededFor75 := if neededRaw >? 0 then neededRaw else 0 in
  mkStats total (c_attended c) (c_absent c) (c_suspended c) (c_excused c)
          (c_pending c) percentage neededFor75.

Definition calculateStats (filteredEvents : list CalendarEvent) : Stats :=
  summarize (countAll filteredEvents).

(** [total === 0 ? 0 : (attended / total) * 100] as the program evaluates
    it: on numbers, with a rounding after the division and another after
    the multiplication. *)
Definition percentageOf (c : Counters) : Double.t :=
  let total := c_attended c + c_absent c in
  if total =? 0 then Double.ofInteger 0
  else Double.mul (Double.div (Double.ofInteger (c_attended c))
                              (Double.ofInteger total))
                  (Double.ofInteger 100).

(** The number stored in the [percentage] field of the result. *)
Definition percentageNumber (filteredEvents : list CalendarEvent) : Double.t :=
  percentageOf (countAll filteredEvents).

(** Specification-side counting: the number of events of [l] whose status
    satisfies the (decidable) predicate [P]. *)
Definition countWhere (P : AttendanceStatus -> Prop) `{!forall s, Decision (P s)}
    (l : list CalendarEvent) : Z :=
  Z.of_nat (length (filter (fun e => P (status e)) l)).

(** The statuses that have a counter of their own; everything else is
    counted as pending. *)
Definition named : list AttendanceStatus := [SUSPENDED; EXCUSED; ATTENDED; ABSENT].

End Statistics.

(** ** Attendance store (the [events] state and its handlers) *)

Module Store.

(** The state updater passed to [setEvents] in [handleFileUpload], applied
    to the events [parseICS] returned. *)
Definition handleFileUpload (parsedEvents prev : list CalendarEvent)
    : list CalendarEvent :=
  prev ++ parsedEvents.

(** [handleClearData]; [confirmed] is the answer of [window.confirm]. *)
Definition handleClearData (confirmed : bool) (events : list CalendarEvent)
    : list CalendarEvent :=
  if confirmed then [] else events.

Definition handleUpdateEvent (events : list CalendarEvent) (updated : CalendarEvent)
    : list CalendarEvent :=
  map (fun e => if String.eqb (id e) (id updated) then updated else e) events.

(** The subset handed to [calculateStats] by [currentStats]. *)
Definition subset (filterTitle : string) (events : list CalendarEvent)
    : list CalendarEvent :=
  if String.eqb filterTitle "All" then events
  else List.filter (fun e => String.eqb (title e) filterTitle) events.

End Store.

(** ** Display *)

Module Display.

(** JavaScript truthiness of an optional boolean and of an optional string:
    [undefined], [false] and the empty string are falsy. *)
Definition truthyBool (b : option bool) : bool :=
  match b with Some true => true | _ => false end.

Definition truthyString (s : option string) : bool :=
  match s with Some s => negb (String.eqb s "") | None => false end.

(** [event.isOverride && event.overrideTitle ? event.overrideTitle : event.title] *)
Definition displayTitle (event : CalendarEvent) : string :=
  if truthyBool (isOverride event) && truthyString (overrideTitle event)
  then default (title event) (overrideTitle event)
  else title event.

(** The style of an event on the calendar: a default, overwritten by four
    [if] statements in a row. *)
Definition statusStyle (st : AttendanceStatus) : string :=
  let statusStyle := "bg-blue-100 text-blue-700 border-blue-200" in
  let statusStyle :=
    if String.eqb st ATTENDED
    then "bg-green-100 text-green-700 border-green-200" else statusStyle in
  let statusStyle :=
    if String.eqb st ABSENT
    then "bg-red-100 text-red-700 border-red-200 line-through decoration-red-400"
    else statusStyle in
  let statusStyle :=
    if String.eqb st SUSPENDED
    then "bg-slate-100 text-slate-500 border-slate-200 opacity-60"
    else statusStyle in
  let statusStyle :=
    if String.eqb st EXCUSED
    then "bg-yellow-100 text-yellow-700 border-yellow-200" else statusStyle in
  statusStyle.

End Display.

(** ** Persistence (the two [useEffect] hooks) *)

(** The two operations of the host's [Date] the hooks rely on:
    [Date.prototype.toISOString] on a valid time value, and the parsing done
    by [new Date(string)], which yields no time value for an unparsable
    string. *)
Class HostDate : Type := {
  toISOString : Z -> string;
  dateParse : string -> option Z
}.

Module Persistence.

(** A date slot as it appears in the JSON text. *)
Inductive Json : Type :=
  | JNull
  | JStr (s : string).

(** One element of the persisted array.  Fields whose value is [undefined]
    are left out by [JSON.stringify]; they read back as [undefined]. *)
Record StoredEvent : Type := mkStored {
  s_id : string;
  s_uid : string;
  s_title : string;
  s_start : Json;
  s_end : Json;
  s_location : option string;
  s_description : option string;
  s_status : string;
  s_overrideTitle : option string;
  s_isOverride : option bool;
  s_recurrenceId : option string;
  s_originalDate : option Json
}.

(** What [localStorage.getItem('attenda_events')] can hold. *)
Inductive Storage : Type :=
  | Missing
  | Corrupt
  | Saved (records : list StoredEvent).

Section WithHost.
Context `{HostDate}.

(** [Date.prototype.toJSON]: the ISO string, or [null] for an invalid date.
    A string or [null] is written as it is. *)
Definition toJSON (d : DateSlot) : Json :=
  match d with
  | DateObj (Some t) => JStr (toISOString t)
  | DateObj None => JNull
  | DateStr s => JStr s
  | DateNull => JNull
  end.

Definition stringify (e : CalendarEvent) : StoredEvent :=
  mkStored (id e) (uid e) (title e) (toJSON (start e)) (toJSON (end_ e))
           (location e) (description e) (status e) (overrideTitle e)
           (isOverride e) (recurrenceId e) (toJSON <$> originalDate e).

(** [new Date(v)] for a parsed JSON value: a string is parsed, [null] is
    converted to the number 0. *)
Definition newDate (v : Json) : DateSlot :=
  match v with
  | JStr s => DateObj (dateParse s)
  | JNull => DateObj (Some 0)
  end.

(** A parsed JSON value copied unchanged by the object spread. *)
Definition spread (v : Json) : DateSlot :=
  match v with
  | JStr s => DateStr s
  | JNull => DateNull
  end.

(** The callback of [parsed.map]: [{...e, start: new Date(e.start),
    end: new Date(e.end)}]. *)
Definition fixDates (e : StoredEvent) : CalendarEvent :=
  mkEvent (s_id e) (s_uid e) (s_title e) (newDate (s_start e)) (newDate (s_end e))
          (s_location e) (s_description e) (s_status e) (s_overrideTitle e)
          (s_isOverride e) (s_recurrenceId e) (spread <$> s_originalDate e).

(** The save hook. *)
Definition save (events : list CalendarEvent) : Storage :=
  Saved (map stringify events).

(** The load hook, started from the initial state [[]]: nothing stored and
    a failing [JSON.parse] both leave the state empty. *)
Definition load (st : Storage) : list CalendarEvent :=
  match st with
  | Missing => []
  | Corrupt => []
  | Saved records => map fixDates records
  end.

End WithHost.

(** A slot holds a structured date, as [types.ts] declares it. *)
Definition isDate (d : DateSlot) : Prop :=
  match d with DateObj _ => True | _ => False end.

(** An event as the parser hands it over, on a host that reads back the ISO
    strings of its two instants: valid [start] and [end] dates and no
    [originalDate]. *)
Definition wellDated `{HostDate} (e : CalendarEvent) : Prop :=
  exists ts te,
    start e = DateObj (Some ts) /\ end_ e = DateObj (Some te) /\
    dateParse (toISOString ts) = Some ts /\
    dateParse (toISOString te) = Some te /\
    originalDate e = None.

End Persistence.

(** ** Calendar projector ([generateCalendarDays]) *)

Module Calendar.

(** A calendar date is counted in whole days since 1970-01-01, which was a
    Thursday; weekdays are numbered as [Date.prototype.getDay] numbers them,
    0 for Sunday up to 6 for Saturday. *)
Definition weekday (d : Z) : Z := (d + 4) mod 7.

Definition SUNDAY : Z := 0.
Definition SATURDAY : Z := 6.

(** The reference date, by its local fields ([getFullYear], [getMonth] with
    0 for January, [getDate]). *)
Record RefDate : Type := mkRef {
  year : Z;
  month : Z;
  day : Z
}.

Definition isLeap (y : Z) : bool :=
  ((y mod 4 =? 0) && negb (y mod 100 =? 0)) || (y mod 400 =? 0).

Definition daysInMonth (y m : Z) : Z :=
  if m =? 1 then (if isLeap y then 29 else 28)
  else if (m =? 3) || (m =? 5) || (m =? 8) || (m =? 10) then 30
  else 31.

(** Day number of the date [y]-[m+1]-[d] in the proleptic Gregorian
    calendar (the year is taken to start in March, so that the leap day
    comes last). *)
Definition daysFromCivil (y m d : Z) : Z :=
  let y' := if m <? 2 then y - 1 else y in
  let era := y' / 400 in
  let yoe := y' - era * 400 in
  let mp := if m <? 2 then m + 10 else m - 2 in
  let doy := (153 * mp + 2) / 5 + d - 1 in
  let doe := yoe * 365 + yoe / 4 - yoe / 100 + doy in
  era * 146097 + doe - 719468.

(** Day count up to 1 March of year [y'], the part of [daysFromCivil] that
    depends on the year only. *)
Definition marchStart (y' : Z) : Z :=
  let era := y' / 400 in
  let yoe := y' - era * 400 in
  era * 146097 + (yoe * 365 + yoe / 4 - yoe / 100).

Definition startOfMonth (r : RefDate) : Z := daysFromCivil (year r) (month r) 1.

Definition endOfMonth (r : RefDate) : Z :=
  startOfMonth r + daysInMonth (year r) (month r) - 1.

(** One cell of the grid. *)
Record Day : Type := mkDay {
  date : Z;
  inMonth : bool
}.

(** Modelled from the spec: [generateCalendarDays] of [utils/dateUtils] is
    imported by [App] but its file is not part of the sources at hand.  The
    grid starts on the Sunday on or before the 1st of the reference month,
    ends on the Saturday on or after its last day, and lists every day in
    between, flagged by whether it belongs to the reference month. *)
Definition generateCalendarDays (r : RefDate) : list Day :=
  let first := startOfMonth r in
  let last := endOfMonth r in
  let gridStart := first - weekday first in
  let gridEnd := last + (6 - weekday last) in
  map (fun d => mkDay d ((first <=? d) && (d <=? last)))
      (seqZ gridStart (gridEnd - gridStart + 1)).

End Calendar.

(** ** Sidebar (the memoised values and the cards of [App]) *)

Module Sidebar.

(** [Set.prototype.add] on a set of strings kept in insertion order. *)
Definition setAdd (s : list string) (x : string) : list string :=
  if bool_decide (x ∈ s) then s else s ++ [x].

(** [Array.from(new Set(xs))]: the elements of [xs] in the order they were
    first inserted. *)
Definition arrayFromSet (xs : list string) : list string :=
  fold_left setAdd xs [].

(** [uniqueTitles], the options of the subject filter. *)
Definition uniqueTitles (events : list CalendarEvent) : list string :=
  arrayFromSet (map title events).

(** [currentStats] for a given selection of the filter. *)
Definition currentStats (filterTitle : string) (events : list CalendarEvent) : Stats :=
  Statistics.calculateStats (Store.subset filterTitle events).

(** [percentage < 75] and [percentage >= 75] on a number that is not NaN. *)
Definition below75 (p : Q) : bool :=
  match (p ?= 75)%Q with Lt => true | _ => false end.

Definition atLeast75 (p : Q) : bool :=
  match (p ?= 75)%Q with Lt => false | _ => true end.

(** The "Attendance Rate" card: its subtext and its colour. *)
Definition rateSubtext (s : Stats) : string :=
  if below75 (percentage s) then "Below Requirement" else "Good Standing".

Definition rateColor (s : Stats) : string :=
  if atLeast75 (percentage s) then "green" else "red".

(** The "For 75%" card: its subtext. *)
Definition targetSubtext (s : Stats) : string :=
  if neededFor75 s >? 0 then "Consecutive attendance needed" else "Keep it up!".

(** Sum of a list of counts. *)
Definition sumZ (l : list Z) : Z := foldr Z.add 0 l.

End Sidebar.

(** ** Sample data *)

Module Samples.

(** A lecture on 2025-01-06, 09:00 to 10:00 UTC, with the given id and
    status and no optional field set. *)
Definition lecture (i : string) (st : AttendanceStatus) : CalendarEvent :=
  mkEvent i "uid-maths" "Maths" (DateObj (Some 1736154000000))
          (DateObj (Some 1736157600000)) None None st None None None None.

(** The scenarios of the statistics engine. *)
Definition threeOfFour : list CalendarEvent :=
  [lecture "a" ATTENDED; lecture "b" ATTENDED; lecture "c" ATTENDED; lecture "d" ABSENT].

Definition oneOfThree : list CalendarEvent :=
  [lecture "a" ATTENDED; lecture "b" ABSENT; lecture "c" ABSENT].

Definition noneSettled : list CalendarEvent :=
  [lecture "a" SUSPENDED; lecture "b" EXCUSED].

(** An override whose replacement title was left blank. *)
Definition blankOverride : CalendarEvent :=
  mkEvent "e1" "uid-maths" "Maths" (DateObj (Some 1736154000000))
          (DateObj (Some 1736157600000)) None None PENDING
          (Some "") (Some true) None None.

(** An override with a replacement title. *)
Definition labSession : CalendarEvent :=
  mkEvent "e2" "uid-maths" "Maths" (DateObj (Some 1736154000000))
          (DateObj (Some 1736157600000)) None None PENDING
          (Some "Maths lab") (Some true) None None.

(** An instance of a weekly series: it carries the date it was generated
    for. *)
Definition weeklyInstance : CalendarEvent :=
  mkEvent "e3" "uid-maths" "Maths" (DateObj (Some 1736154000000))
          (DateObj (Some 1736157600000)) (Some "Room 2") None ATTENDED
          None None (Some "uid-maths") (Some (DateObj (Some 1736154000000))).

(** January 2025 starts on a Wednesday. *)
Definition january2025 : Calendar.RefDate := Calendar.mkRef 2025 0 15.

(** A class of another subject, with the given id and status. *)
Definition physics (i : string) (st : AttendanceStatus) : CalendarEvent :=
  mkEvent i "uid-physics" "Physics" (DateObj (Some 1736154000000))
          (DateObj (Some 1736157600000)) None None st None None None None.

(** A week of two subjects. *)
Definition timetable : list CalendarEvent :=
  [lecture "m1" ATTENDED; physics "p1" ABSENT; lecture "m2" PENDING;
   physics "p2" ATTENDED; lecture "m3" ABSENT].

(** A class whose start could not be read: an invalid date. *)
Definition undatedLecture : CalendarEvent :=
  mkEvent "u1" "uid-maths" "Maths" (DateObj None)
          (DateObj (Some 1736157600000)) None None PENDING None None None None.

(** A host that knows the two instants of the sample classes. *)
Definition tableHost : HostDate :=
  {| toISOString := fun t =>
       if t =? 1736154000000 then "2025-01-06T09:00:00.000Z"
       else if t =? 1736157600000 then "2025-01-06T10:00:00.000Z"
       else "1970-01-01T00:00:00.000Z";
     dateParse := fun s =>
       if String.eqb s "2025-01-06T09:00:00.000Z" then Some 1736154000000
       else if String.eqb s "2025-01-06T10:00:00.000Z" then Some 1736157600000
       else if String.eqb s "1970-01-01T00:00:00.000Z" then Some 0
       else None |}.

End Samples.

(** * Properties *)

(** ** Statistics engine *)

Section StatisticsFacts.
Import Statistics.

Implicit Types (l : list CalendarEvent) (c : Counters) (e : CalendarEvent).

Lemma countWhere_nil (P : AttendanceStatus -> Prop) `{!forall s, Decision (P s)} :
  countWhere P [] = 0.
Proof. reflexivity. Qed.

Lemma countWhere_cons (P : AttendanceStatus -> Prop) `{!forall s, Decision (P s)} e l :
  countWhere P (e :: l) = (if decide (P (status e)) then 1 else 0) + countWhere P l.
Proof.
  unfold countWhere. rewrite filter_cons.
  destruct (decide (P (status e))); simpl length; lia.
Qed.

Lemma countWhere_app (P : AttendanceStatus -> Prop) `{!forall s, Decision (P s)} l1 l2 :
  countWhere P (l1 ++ l2) = countWhere P l1 + countWhere P l2.
Proof. unfold countWhere. rewrite filter_app, length_app. lia. Qed.

Lemma countWhere_nonneg (P : AttendanceStatus -> Prop) `{!forall s, Decision (P s)} l :
  0 <= countWhere P l.
Proof. unfold countWhere. lia. Qed.

(** The four named statuses are pairwise different strings. *)
Lemma named_NoDup : NoDup named.
Proof. unfold named. compute_done. Qed.

(** Which counter one step of the loop bumps. *)
Lemma tally_spec c e :
  tally c e =
    mkCounters
      (c_attended c + (if decide (status e = ATTENDED) then 1 else 0))
      (c_absent c + (if decide (status e = ABSENT) then 1 else 0))
      (c_suspended c + (if decide (status e = SUSPENDED) then 1 else 0))
      (c_excused c + (if decide (status e = EXCUSED) then 1 else 0))
      (c_pending c + (if decide (status e ∉ named) then 1 else 0)).
Proof.
  unfold tally, named.
  destruct (String.eqb_spec (status e) SUSPENDED) as [->|Hs].
  { destruct c; simpl. f_equal; lia. }
  destruct (String.eqb_spec (status e) EXCUSED) as [->|He].
  { destruct c; simpl. f_equal; lia. }
  destruct (String.eqb_spec (status e) ATTENDED) as [->|Ha].
  { destruct c; simpl. f_equal; lia. }
  destruct (String.eqb_spec (status e) ABSENT) as [->|Hb].
  { destruct c; simpl. f_equal; lia. }
  repeat (rewrite decide_False by assumption).
  rewrite decide_True by (rewrite !not_elem_of_cons; repeat split; auto using not_elem_of_nil).
  destruct c; simpl. f_equal; lia.
Qed.

(** Loop invariant of the [forEach]: every counter has grown by the number
    of events of its class seen so far. *)
Lemma fold_tally l c :
  fold_left tally l c =
    mkCounters
      (c_attended c + countWhere (fun s => s = ATTENDED) l)
      (c_absent c + countWhere (fun s => s = ABSENT) l)
      (c_suspended c + countWhere (fun s => s = SUSPENDED) l)
      (c_excused c + countWhere (fun s => s = EXCUSED) l)
      (c_pending c + countWhere (fun s => s ∉ named) l).
Proof.
  revert c. induction l as [|e l IH]; intros c.
  - rewrite !countWhere_nil. destruct c; simpl. f_equal; lia.
  - simpl fold_left. rewrite IH, tally_spec, !countWhere_cons. simpl.
    f_equal; lia.
Qed.

Lemma countAll_spec l :
  countAll l =
    mkCounters
      (countWhere (fun s => s = ATTENDED) l)
      (countWhere (fun s => s = ABSENT) l)
      (countWhere (fun s => s = SUSPENDED) l)
      (countWhere (fun s => s = EXCUSED) l)
      (countWhere (fun s => s ∉ named) l).
Proof. unfold countAll. rewrite fold_tally. reflexivity. Qed.

(** The five classes partition the events. *)
Lemma classes_partition l :
  countWhere (fun s => s = SUSPENDED) l + countWhere (fun s => s = EXCUSED) l
  + countWhere (fun s => s = ATTENDED) l + countWhere (fun s => s = ABSENT) l
  + countWhere (fun s => s ∉ named) l = Z.of_nat (length l).
Proof.
  induction l as [|e l IH]; [reflexivity|].
  rewrite !countWhere_cons. simpl length. rewrite Nat2Z.inj_succ.
  assert (c_suspended (tally zero e) + c_excused (tally zero e)
          + c_attended (tally zero e) + c_absent (tally zero e)
          + c_pending (tally zero e) = 1) as Hone.
  { unfold tally.
    repeat match goal with
    | |- context [String.eqb ?a ?b] => destruct (String.eqb a b)
    end; reflexivity. }
  rewrite tally_spec in Hone. simpl in Hone. lia.
Qed.

End StatisticsFacts.

(** ** Ratios of counts *)

Section Ratios.

(** Comparing two quotients of integers with positive denominators is
    comparing the cross products. *)
Lemma ratio_le_cross (a b c d : Z) :
  0 < b -> 0 < d ->
  (inject_Z a / inject_Z b <= inject_Z c / inject_Z d)%Q <-> a * d <= c * b.
Proof.
  intros Hb Hd.
  destruct b as [|b|b]; try lia. destruct d as [|d|d]; try lia.
  unfold Qle, Qdiv, Qmult, Qinv, inject_Z. cbn [Qnum Qden].
  rewrite !Pos.mul_1_l, !Z.mul_1_r. reflexivity.
Qed.

Lemma ratio_lt_cross (a b c d : Z) :
  0 < b -> 0 < d ->
  (inject_Z a / inject_Z b < inject_Z c / inject_Z d)%Q <-> a * d < c * b.
Proof.
  intros Hb Hd.
  destruct b as [|b|b]; try lia. destruct d as [|d|d]; try lia.
  unfold Qlt, Qdiv, Qmult, Qinv, inject_Z. cbn [Qnum Qden].
  rewrite !Pos.mul_1_l, !Z.mul_1_r. reflexivity.
Qed.

Lemma three_quarters : (3 # 4 == inject_Z 3 / inject_Z 4)%Q.
Proof. reflexivity. Qed.

(** A quotient of counts reaches three quarters. *)
Lemma ratio_ge_three_quarters (p q : Z) :
  0 < q -> (3 # 4 <= inject_Z p / inject_Z q)%Q <-> 3 * q <= 4 * p.
Proof.
  intros Hq. rewrite three_quarters, ratio_le_cross by lia. lia.
Qed.

Lemma ratio_lt_three_quarters (p q : Z) :
  0 < q -> (inject_Z p / inject_Z q < 3 # 4)%Q <-> 4 * p < 3 * q.
Proof.
  intros Hq. rewrite three_quarters, ratio_lt_cross by lia. lia.
Qed.

(** Scaling to a percentage keeps the order. *)
Lemma percent_le (x y : Q) : (x * 100 <= y * 100)%Q <-> (x <= y)%Q.
Proof. split; intros; lra. Qed.

Lemma percent_ge_75 (x : Q) : (75 <= x * 100)%Q <-> (3 # 4 <= x)%Q.
Proof. split; intros; lra. Qed.

End Ratios.

(** ** What [calculateStats] returns *)

Section StatisticsClaims.
Import Statistics.

Implicit Types (l : list CalendarEvent) (e : CalendarEvent).

(** The fields of the result, read off the counts of the input. *)
Lemma calculateStats_fields l :
  let s := calculateStats l in
  attended s = countWhere (fun st => st = ATTENDED) l /\
  absent s = countWhere (fun st => st = ABSENT) l /\
  total s = attended s + absent s /\
  percentage s =
    (if total s =? 0 then 0
     else inject_Z (attended s) / inject_Z (total s) * 100)%Q /\
  neededFor75 s =
    (if 3 * total s - 4 * attended s >? 0
     then 3 * total s - 4 * attended s else 0).
Proof.
  unfold calculateStats. rewrite countAll_spec. cbn. repeat split.
Qed.

Lemma attended_absent_nonneg l :
  0 <= attended (calculateStats l) /\ 0 <= absent (calculateStats l).
Proof.
  destruct (calculateStats_fields l) as (-> & -> & _).
  split; apply countWhere_nonneg.
Qed.

(** Appending one event bumps the counter of its class. *)
Lemma calculateStats_snoc_attended l e :
  status e = ATTENDED ->
  attended (calculateStats (l ++ [e])) = attended (calculateStats l) + 1 /\
  absent (calculateStats (l ++ [e])) = absent (calculateStats l).
Proof.
  intros He.
  destruct (calculateStats_fields (l ++ [e])) as (-> & -> & _).
  destruct (calculateStats_fields l) as (-> & -> & _).
  rewrite !countWhere_app, !countWhere_cons, !countWhere_nil, He.
  repeat case_decide; solve [lia | unfold ATTENDED, ABSENT in *; congruence].
Qed.

Lemma calculateStats_snoc_absent l e :
  status e = ABSENT ->
  attended (calculateStats (l ++ [e])) = attended (calculateStats l) /\
  absent (calculateStats (l ++ [e])) = absent (calculateStats l) + 1.
Proof.
  intros He.
  destruct (calculateStats_fields (l ++ [e])) as (-> & -> & _).
  destruct (calculateStats_fields l) as (-> & -> & _).
  rewrite !countWhere_app, !countWhere_cons, !countWhere_nil, He.
  repeat case_decide; solve [lia | unfold ATTENDED, ABSENT in *; congruence].
Qed.

(** C1. Every event is counted in exactly one of the five counters:
    SUSPENDED in [suspended], EXCUSED in [excused], ATTENDED in [attended],
    ABSENT in [absent], and every other status (PENDING included) in
    [pending]; the five counters add up to the number of events.  The
    result satisfies [total = attended + absent] and
    [total <= length occurrences]. *)
Theorem calculateStats_classifies l :
  let s := calculateStats l in
  suspended s = countWhere (fun st => st = SUSPENDED) l /\
  excused s = countWhere (fun st => st = EXCUSED) l /\
  attended s = countWhere (fun st => st = ATTENDED) l /\
  absent s = countWhere (fun st => st = ABSENT) l /\
  pending s = countWhere (fun st => st ∉ named) l /\
  suspended s + excused s + attended s + absent s + pending s
    = Z.of_nat (length l) /\
  total s = attended s + absent s /\
  total s <= Z.of_nat (length l).
Proof.
  pose proof (classes_partition l) as Hsum.
  pose proof (countWhere_nonneg (fun st => st = SUSPENDED) l).
  pose proof (countWhere_nonneg (fun st => st = EXCUSED) l).
  pose proof (countWhere_nonneg (fun st => st ∉ named) l).
  unfold calculateStats. rewrite countAll_spec. cbn.
  repeat split; lia.
Qed.


(** The closed form of [neededFor75]. *)
Lemma neededFor75_max l :
  let s := calculateStats l in
  neededFor75 s = Z.max 0 (3 * total s - 4 * attended s).
Proof.
  destruct (calculateStats_fields l) as (_ & _ & _ & _ & Hn).
  cbn zeta. rewrite Hn.
  destruct (3 * total (calculateStats l) - 4 * attended (calculateStats l) >? 0) eqn:E;
    lia.
Qed.

(** C2. [neededFor75 = max(0, 3*total - 4*attended)].  When it is positive,
    attending that many further classes reaches three quarters, and one
    class fewer stays strictly below (whenever one fewer is non-negative
    and the denominator is positive).  More generally, among the numbers
    [x >= 0] of further attendances with a positive denominator, exactly
    those with [x >= neededFor75] reach three quarters. *)
Theorem neededFor75_threshold l :
  let s := calculateStats l in
  let n := neededFor75 s in
  n = Z.max 0 (3 * total s - 4 * attended s) /\
  (0 < n ->
     (3 # 4 <= inject_Z (attended s + n) / inject_Z (total s + n))%Q) /\
  (0 <= n - 1 -> 0 < total s + n - 1 ->
     (inject_Z (attended s + n - 1) / inject_Z (total s + n - 1) < 3 # 4)%Q) /\
  (forall x, 0 <= x -> 0 < total s + x ->
     (3 # 4 <= inject_Z (attended s + x) / inject_Z (total s + x))%Q <-> n <= x).
Proof.
  pose proof (neededFor75_max l) as Hn.
  destruct (calculateStats_fields l) as (_ & _ & Ht & _).
  pose proof (attended_absent_nonneg l) as [Ha Hb].
  cbn zeta in *. split; [exact Hn|]. split; [|split].
  - intros Hpos. apply ratio_ge_three_quarters; lia.
  - intros H1 Hden. apply ratio_lt_three_quarters; lia.
  - intros x Hx Hden. rewrite ratio_ge_three_quarters by lia. lia.
Qed.

(** C5. Appending an ATTENDED event never lowers [percentage]; appending
    an ABSENT event never raises it. *)
Theorem percentage_monotone l e :
  (status e = ATTENDED ->
     (percentage (calculateStats l) <= percentage (calculateStats (l ++ [e])))%Q) /\
  (status e = ABSENT ->
     (percentage (calculateStats (l ++ [e])) <= percentage (calculateStats l))%Q).
Proof.
  destruct (calculateStats_fields l) as (_ & _ & Ht & Hp & _).
  destruct (calculateStats_fields (l ++ [e])) as (_ & _ & Ht' & Hp' & _).
  pose proof (attended_absent_nonneg l) as [Ha Hb].
  cbn zeta in *. rewrite Hp, Hp', Ht, Ht'. clear Hp Hp' Ht Ht'.
  split; intros He.
  - destruct (calculateStats_snoc_attended l e He) as [-> ->].
    destruct (Z.eqb_spec (attended (calculateStats l) + 1 + absent (calculateStats l)) 0);
      [lia|].
    destruct (Z.eqb_spec (attended (calculateStats l) + absent (calculateStats l)) 0)
      as [E0|E0].
    + assert (attended (calculateStats l) = 0) as -> by lia.
      assert (absent (calculateStats l) = 0) as -> by lia.
      vm_compute. discriminate.
    + apply percent_le, ratio_le_cross; lia.
  - destruct (calculateStats_snoc_absent l e He) as [-> ->].
    destruct (Z.eqb_spec (attended (calculateStats l) + (absent (calculateStats l) + 1)) 0);
      [lia|].
    destruct (Z.eqb_spec (attended (calculateStats l) + absent (calculateStats l)) 0)
      as [E0|E0].
    + assert (attended (calculateStats l) = 0) as -> by lia.
      vm_compute. discriminate.
    + apply percent_le, ratio_le_cross; lia.
Qed.

(** C10, as amended. [neededFor75 = 0] exactly when [total = 0] or
    [4*attended >= 3*total].  Once some class is settled ([total <> 0]) this
    is the same as [percentage >= 75]; with no settled class the target
    counts as met ([neededFor75 = 0]) although [percentage] is 0. *)
Theorem target_met_iff l :
  let s := calculateStats l in
  (neededFor75 s = 0 <-> total s = 0 \/ 3 * total s <= 4 * attended s) /\
  (total s <> 0 -> (neededFor75 s = 0 <-> (75 <= percentage s)%Q)) /\
  (total s = 0 -> neededFor75 s = 0 /\ percentage s = 0%Q).
Proof.
  pose proof (neededFor75_max l) as Hn.
  destruct (calculateStats_fields l) as (_ & _ & Ht & Hp & _).
  pose proof (attended_absent_nonneg l) as [Ha Hb].
  cbn zeta in *. split; [lia|]. split.
  - intros Hne. rewrite Hp.
    destruct (Z.eqb_spec (total (calculateStats l)) 0); [lia|].
    rewrite percent_ge_75, ratio_ge_three_quarters by lia. lia.
  - intros H0. rewrite Hp, H0. split; [lia|reflexivity].
Qed.

(** With no event at all the target counts as met while the percentage is
    0: [neededFor75 = 0] and [percentage >= 75] do not always coincide. *)
Lemma target_met_not_iff_75 :
  ~ (forall l, neededFor75 (calculateStats l) = 0
               <-> (75 <= percentage (calculateStats l))%Q).
Proof.
  intros H. specialize (H []). destruct H as [H _].
  specialize (H eq_refl). vm_compute in H. apply H. reflexivity.
Qed.

End StatisticsClaims.

(** ** Scenarios and instances for the statistics engine *)

Section StatisticsScenarios.
Import Statistics Samples.

Local Ltac by_computation := vm_compute; first [reflexivity | discriminate].

(** Three attended out of four settled: exactly 75 percent, target met. *)
Example scenario_threeOfFour :
  let s := calculateStats threeOfFour in
  total s = 4 /\ attended s = 3 /\ (percentage s == 75)%Q /\ neededFor75 s = 0.
Proof. repeat split. Qed.

(** One attended out of three settled: a third, five more needed. *)
Example scenario_oneOfThree :
  let s := calculateStats oneOfThree in
  total s = 3 /\ attended s = 1 /\ (percentage s == 100 # 3)%Q /\ neededFor75 s = 5.
Proof. repeat split. Qed.

(** Only suspended and excused classes: nothing settled. *)
Example scenario_noneSettled :
  let s := calculateStats noneSettled in
  total s = 0 /\ percentage s = 0%Q /\ neededFor75 s = 0
  /\ suspended s = 1 /\ excused s = 1.
Proof. repeat split. Qed.

(** The stored percentages of the three scenarios: exactly 75, the number
    printed as 33.33333333333333 (strictly below 100/3), and 0. *)
Example scenario_numbers :
  Double.toQ (percentageNumber threeOfFour) = Some (5277655813324800 # 70368744177664)%Q /\
  (5277655813324800 # 70368744177664 == 75)%Q /\
  Double.toQ (percentageNumber oneOfThree) = Some (4691249611844266 # 140737488355328)%Q /\
  (4691249611844266 # 140737488355328 < 100 # 3)%Q /\
  Double.toQ (percentageNumber noneSettled) = Some 0%Q.
Proof. repeat split. Qed.

(** One attended out of three: five more are needed, four are not enough. *)
Lemma neededFor75_threshold_witness :
  let s := calculateStats oneOfThree in
  let n := neededFor75 s in
  0 < n /\ 0 <= n - 1 /\ 0 < total s + n - 1 /\
  (3 # 4 <= inject_Z (attended s + n) / inject_Z (total s + n))%Q /\
  (inject_Z (attended s + n - 1) / inject_Z (total s + n - 1) < 3 # 4)%Q.
Proof.
  destruct (neededFor75_threshold oneOfThree) as (_ & Hge & Hlt & _).
  split; [by_computation|]. split; [by_computation|]. split; [by_computation|].
  split; [apply Hge; by_computation | apply Hlt; by_computation].
Defined.


(** A fourth class, attended or missed, after one attended out of three. *)
Lemma percentage_monotone_witness :
  (percentage (calculateStats oneOfThree)
   <= percentage (calculateStats (oneOfThree ++ [lecture "d" ATTENDED])))%Q /\
  (percentage (calculateStats (oneOfThree ++ [lecture "d" ABSENT]))
   <= percentage (calculateStats oneOfThree))%Q.
Proof.
  split.
  - apply (percentage_monotone oneOfThree (lecture "d" ATTENDED)). reflexivity.
  - apply (percentage_monotone oneOfThree (lecture "d" ABSENT)). reflexivity.
Defined.

(** Three out of four meets the target at 75 percent; with nothing settled
    the target counts as met at 0 percent. *)
Lemma target_met_iff_witness :
  (total (calculateStats threeOfFour) <> 0 /\
   (neededFor75 (calculateStats threeOfFour) = 0
    <-> (75 <= percentage (calculateStats threeOfFour))%Q)) /\
  (total (calculateStats noneSettled) = 0 /\
   neededFor75 (calculateStats noneSettled) = 0 /\
   percentage (calculateStats noneSettled) = 0%Q).
Proof.
  split.
  - split; [by_computation|].
    apply (target_met_iff threeOfFour). by_computation.
  - split; [reflexivity|].
    apply (target_met_iff noneSettled). reflexivity.
Defined.

End StatisticsScenarios.

(** ** Attendance store *)

Section StoreFacts.
Import Store.

Implicit Types (events prev parsedEvents : list CalendarEvent).
Implicit Types (updated e : CalendarEvent).

(** C6. An import returns the prior events followed by the parsed ones, in
    order: the prior events are all still there, unmodified, the parsed
    ones follow, and nothing is dropped whatever [uid] or [recurrenceId] it
    shares with another event.  Importing the same events a second time
    therefore lists them twice. *)
Theorem handleFileUpload_appends prev parsedEvents :
  let events := handleFileUpload parsedEvents prev in
  events = prev ++ parsedEvents /\
  length events = (length prev + length parsedEvents)%nat /\
  take (length prev) events = prev /\
  drop (length prev) events = parsedEvents /\
  (forall u, filter (fun e => uid e = u) events
             = filter (fun e => uid e = u) prev
               ++ filter (fun e => uid e = u) parsedEvents) /\
  (forall r, filter (fun e => recurrenceId e = r) events
             = filter (fun e => recurrenceId e = r) prev
               ++ filter (fun e => recurrenceId e = r) parsedEvents) /\
  handleFileUpload parsedEvents events = prev ++ parsedEvents ++ parsedEvents.
Proof.
  unfold handleFileUpload. cbn zeta. repeat split.
  - apply length_app.
  - apply take_app_length.
  - apply drop_app_length.
  - intros u. apply filter_app.
  - intros r. apply filter_app.
  - symmetry. apply (assoc_L (++)).
Qed.

Lemma handleUpdateEvent_lookup events updated (i : nat) :
  handleUpdateEvent events updated !! i
  = (fun e => if decide (id e = id updated) then updated else e) <$> events !! i.
Proof.
  unfold handleUpdateEvent.
  change (map ?f ?l) with (f <$> l). rewrite list_lookup_fmap.
  destruct (events !! i) as [e|]; [|reflexivity]. simpl. f_equal.
  destruct (String.eqb_spec (id e) (id updated)); case_decide; congruence.
Qed.

(** C7. An update keeps the number and order of the events; at every
    position the event is replaced by the updated record if its id is the
    updated record's id and is left as it was otherwise.  If no event has
    that id the store is unchanged; if ids are unique and the id is found at
    position [i], the result is the store with position [i] overwritten. *)
Theorem handleUpdateEvent_replaces events updated :
  let events' := handleUpdateEvent events updated in
  length events' = length events /\
  (forall i : nat,
     events' !! i
     = (fun e => if decide (id e = id updated) then updated else e) <$> events !! i) /\
  ((forall e, e ∈ events -> id e <> id updated) -> events' = events) /\
  (forall (i : nat) e,
     NoDup (id <$> events) -> events !! i = Some e -> id e = id updated ->
     events' = <[i := updated]> events).
Proof.
  cbn zeta. split; [apply length_map|].
  split; [apply handleUpdateEvent_lookup|]. split.
  - intros Hnone. apply list_eq. intros i.
    rewrite handleUpdateEvent_lookup.
    destruct (events !! i) as [e|] eqn:Hi; [|reflexivity]. simpl.
    rewrite decide_False; [reflexivity|].
    apply Hnone. apply list_elem_of_lookup. eauto.
  - intros i e Hnodup Hi Hid. apply list_eq. intros j.
    rewrite handleUpdateEvent_lookup.
    destruct (decide (i = j)) as [<-|Hne].
    + rewrite list_lookup_insert_eq by (eapply lookup_lt_Some; eassumption).
      rewrite Hi. simpl. rewrite decide_True by assumption. reflexivity.
    + rewrite list_lookup_insert_ne by assumption.
      destruct (events !! j) as [e'|] eqn:Hj; [|reflexivity]. simpl.
      rewrite decide_False; [reflexivity|].
      intros Hid'. apply Hne.
      apply (NoDup_lookup (id <$> events) i j (id updated)); [assumption| |].
      * rewrite list_lookup_fmap, Hi. simpl. congruence.
      * rewrite list_lookup_fmap, Hj. simpl. congruence.
Qed.

(** Updating an unknown id changes nothing; updating the second of two
    events overwrites position 1. *)
Lemma handleUpdateEvent_replaces_witness :
  let events := [Samples.lecture "a" PENDING; Samples.lecture "b" PENDING] in
  handleUpdateEvent events (Samples.lecture "zz" ATTENDED) = events /\
  handleUpdateEvent events (Samples.lecture "b" ATTENDED)
  = <[1%nat := Samples.lecture "b" ATTENDED]> events.
Proof.
  cbn zeta. split.
  - apply (handleUpdateEvent_replaces
             [Samples.lecture "a" PENDING; Samples.lecture "b" PENDING]
             (Samples.lecture "zz" ATTENDED)).
    intros e He. apply elem_of_cons in He as [->|He]; [discriminate|].
    apply elem_of_cons in He as [->|He]; [discriminate|].
    apply elem_of_nil in He. destruct He.
  - destruct (handleUpdateEvent_replaces
                [Samples.lecture "a" PENDING; Samples.lecture "b" PENDING]
                (Samples.lecture "b" ATTENDED)) as (_ & _ & _ & Hfound).
    apply (Hfound 1%nat (Samples.lecture "b" PENDING)).
    + apply NoDup_cons. split; [|apply NoDup_singleton].
      intros He. apply list_elem_of_singleton in He. discriminate.
    + reflexivity.
    + reflexivity.
Defined.

End StoreFacts.

(** ** Displayed title *)

Section DisplayFacts.
Import Display.

Implicit Types (event : CalendarEvent).

(** C9, as amended. The displayed title is [overrideTitle] when
    [isOverride] is true and [overrideTitle] is present and not the empty
    string; in every other case it is [title]. *)
Theorem displayTitle_prefers_override event :
  (forall s, isOverride event = Some true -> overrideTitle event = Some s ->
             s <> "" -> displayTitle event = s) /\
  (isOverride event <> Some true \/ overrideTitle event = None
   \/ overrideTitle event = Some "" ->
   displayTitle event = title event).
Proof.
  unfold displayTitle, truthyBool, truthyString. split.
  - intros s -> -> Hs. simpl.
    destruct (String.eqb_spec s ""); [contradiction|reflexivity].
  - intros [Hno | [-> | ->]].
    + destruct (isOverride event) as [[|]|]; [contradiction|reflexivity..].
    + destruct (isOverride event) as [[|]|]; reflexivity.
    + destruct (isOverride event) as [[|]|]; reflexivity.
Qed.

(** A titled override shows its replacement title, a blank one its own. *)
Lemma displayTitle_prefers_override_witness :
  displayTitle Samples.labSession = "Maths lab" /\
  displayTitle Samples.blankOverride = title Samples.blankOverride.
Proof.
  split.
  - apply (displayTitle_prefers_override Samples.labSession);
      [reflexivity | reflexivity | discriminate].
  - apply (displayTitle_prefers_override Samples.blankOverride).
    right. right. reflexivity.
Defined.

(** An override whose [overrideTitle] is present but empty is displayed
    under its [title], not under its [overrideTitle]. *)
Lemma displayTitle_blank_override :
  isOverride Samples.blankOverride = Some true /\
  overrideTitle Samples.blankOverride = Some "" /\
  displayTitle Samples.blankOverride = "Maths" /\
  ~ (forall event s, isOverride event = Some true ->
                     overrideTitle event = Some s -> displayTitle event = s).
Proof.
  repeat split.
  intros Hclaim.
  specialize (Hclaim Samples.blankOverride "" eq_refl eq_refl). discriminate.
Qed.

End DisplayFacts.

(** ** Persistence *)

Section PersistenceFacts.
Import Persistence.
Context `{HostDate}.

Implicit Types (e : CalendarEvent) (events : list CalendarEvent).

Lemma load_save events : load (save events) = (fixDates ∘ stringify) <$> events.
Proof. unfold load, save. rewrite map_map. reflexivity. Qed.

(** Nothing stored, or something [JSON.parse] rejects: the store starts
    empty. *)
Lemma load_unusable : load Missing = [] /\ load Corrupt = [].
Proof. split; reflexivity. Qed.

(** Every field that is not date-typed comes back with its value. *)
Lemma reload_plain_fields e :
  let e' := fixDates (stringify e) in
  id e' = id e /\ uid e' = uid e /\ title e' = title e /\
  location e' = location e /\ description e' = description e /\
  status e' = status e /\ overrideTitle e' = overrideTitle e /\
  isOverride e' = isOverride e /\ recurrenceId e' = recurrenceId e.
Proof. repeat split. Qed.

(** [start] and [end] come back as dates. *)
Lemma reload_start_end_dates e :
  isDate (start (fixDates (stringify e))) /\ isDate (end_ (fixDates (stringify e))).
Proof.
  split; simpl.
  - destruct (toJSON (start e)); exact I.
  - destruct (toJSON (end_ e)); exact I.
Qed.

(** On a host whose parser reads back its own ISO strings, valid [start]
    and [end] dates come back with their time value. *)
Lemma reload_start_end_values e ts te :
  (forall t, dateParse (toISOString t) = Some t) ->
  start e = DateObj (Some ts) -> end_ e = DateObj (Some te) ->
  start (fixDates (stringify e)) = start e /\
  end_ (fixDates (stringify e)) = end_ e.
Proof.
  intros Hparse Hs He. simpl. rewrite Hs, He. simpl.
  rewrite !Hparse. split; reflexivity.
Qed.

(** X26. [originalDate] is copied by the spread and never rebuilt: when present
    it comes back as a string or [null], not as a date. *)
Lemma reload_originalDate e d :
  originalDate e = Some d ->
  exists d', originalDate (fixDates (stringify e)) = Some d' /\ ~ isDate d'.
Proof.
  intros Hd. simpl. rewrite Hd. simpl.
  exists (spread (toJSON d)). split; [reflexivity|].
  destruct (toJSON d); simpl; tauto.
Qed.

(** C4, at an event of a weekly series. After saving and loading, its
    [originalDate] holds the ISO string of the date instead of the date, so
    the reloaded collection differs from the one that was saved. *)
Theorem reload_originalDate_stays_string :
  originalDate <$> load (save [Samples.weeklyInstance])
  = [Some (DateStr (toISOString 1736154000000))] /\
  originalDate <$> [Samples.weeklyInstance]
  = [Some (DateObj (Some 1736154000000))] /\
  load (save [Samples.weeklyInstance]) <> [Samples.weeklyInstance].
Proof.
  split; [reflexivity|]. split; [reflexivity|].
  intros Heq. apply (f_equal (fmap originalDate)) in Heq. discriminate.
Qed.

End PersistenceFacts.

(** ** Calendar projector *)

Section CalendarFacts.
Import Calendar.

Implicit Types (r : RefDate) (d : Z).

Lemma weekday_range d : 0 <= weekday d < 7.
Proof. unfold weekday. apply Z.mod_pos_bound. lia. Qed.

Lemma daysInMonth_range y m : 28 <= daysInMonth y m <= 31.
Proof.
  unfold daysInMonth.
  destruct (m =? 1); [destruct (isLeap y); lia|].
  destruct ((m =? 3) || (m =? 5) || (m =? 8) || (m =? 10)); lia.
Qed.

Lemma month_nonempty r : startOfMonth r <= endOfMonth r.
Proof.
  unfold endOfMonth. pose proof (daysInMonth_range (year r) (month r)). lia.
Qed.

(** Stepping back by the weekday lands on a Sunday; stepping forward to
    weekday 6 lands on a Saturday. *)
Lemma sunday_on_or_before d : weekday (d - weekday d) = SUNDAY.
Proof. unfold weekday, SUNDAY. Z.div_mod_to_equations. lia. Qed.

Lemma saturday_on_or_after d : weekday (d + (6 - weekday d)) = SATURDAY.
Proof. unfold weekday, SATURDAY. Z.div_mod_to_equations. lia. Qed.

(** The grid spans a whole number of weeks, at least four. *)
Lemma grid_span r :
  let first := startOfMonth r in
  let last := endOfMonth r in
  exists k, 4 <= k /\
    last + (6 - weekday last) - (first - weekday first) + 1 = 7 * k.
Proof.
  cbn zeta. pose proof (daysInMonth_range (year r) (month r)) as Hlen.
  unfold endOfMonth in *. unfold weekday.
  set (first := startOfMonth r) in *. set (n := daysInMonth (year r) (month r)) in *.
  exists ((first + n - 1 + 4) / 7 - (first + 4) / 7 + 1).
  Z.div_mod_to_equations. lia.
Qed.

Lemma generateCalendarDays_dates r :
  date <$> generateCalendarDays r
  = seqZ (startOfMonth r - weekday (startOfMonth r))
         (endOfMonth r + (6 - weekday (endOfMonth r))
          - (startOfMonth r - weekday (startOfMonth r)) + 1).
Proof.
  unfold generateCalendarDays. cbn zeta.
  change (map ?f ?l) with (f <$> l).
  rewrite <- list_fmap_compose. apply list_fmap_id.
Qed.

Lemma generateCalendarDays_length r :
  Z.of_nat (length (generateCalendarDays r))
  = endOfMonth r + (6 - weekday (endOfMonth r))
    - (startOfMonth r - weekday (startOfMonth r)) + 1.
Proof.
  destruct (grid_span r) as (k & Hk & Hspan). cbn zeta in Hspan.
  rewrite <- (length_fmap date), generateCalendarDays_dates, length_seqZ. lia.
Qed.

(** C8. The grid is a whole number of weeks of consecutive days; its first
    day is the Sunday on or before the 1st of the reference month and its
    last day is the Saturday on or after the last day of that month. *)
Theorem generateCalendarDays_whole_weeks r :
  let days := generateCalendarDays r in
  (exists k : nat, length days = (7 * k)%nat) /\
  (exists first,
     head days = Some first /\ weekday (date first) = SUNDAY /\
     date first <= startOfMonth r < date first + 7) /\
  (exists final,
     last days = Some final /\ weekday (date final) = SATURDAY /\
     date final - 7 < endOfMonth r <= date final) /\
  (forall (i : nat) cell, days !! i = Some cell ->
     date cell = startOfMonth r - weekday (startOfMonth r) + Z.of_nat i /\
     inMonth cell = bool_decide (startOfMonth r <= date cell <= endOfMonth r)).
Proof.
  cbn zeta.
  pose proof (generateCalendarDays_length r) as Hlen.
  destruct (grid_span r) as (k & Hk & Hspan). cbn zeta in Hspan.
  pose proof (weekday_range (startOfMonth r)) as Hws.
  pose proof (weekday_range (endOfMonth r)) as Hwe.
  pose proof (month_nonempty r) as Hne.
  assert (forall (i : nat) cell, generateCalendarDays r !! i = Some cell ->
            date cell = startOfMonth r - weekday (startOfMonth r) + Z.of_nat i /\
            inMonth cell
            = bool_decide (startOfMonth r <= date cell <= endOfMonth r)) as Hcell.
  { intros i cell Hi. unfold generateCalendarDays in Hi. cbn zeta in Hi.
    change (map ?f ?l) with (f <$> l) in Hi.
    rewrite list_lookup_fmap in Hi.
    destruct (seqZ _ _ !! i) as [d|] eqn:Hd; [|discriminate].
    apply lookup_seqZ in Hd as [-> _]. injection Hi as <-. simpl.
    split; [reflexivity|].
    case_bool_decide; lia. }
  split; [|split; [|split]].
  - exists (Z.to_nat k). lia.
  - destruct (generateCalendarDays r !! 0%nat) as [cell|] eqn:H0.
    + exists cell. rewrite head_lookup. split; [assumption|].
      destruct (Hcell _ _ H0) as [-> _]. rewrite Z.add_0_r.
      split; [apply sunday_on_or_before|lia].
    + apply lookup_ge_None in H0. lia.
  - rewrite last_lookup.
    destruct (generateCalendarDays r !! pred (length (generateCalendarDays r)))
      as [cell|] eqn:Hl.
    + exists cell. split; [reflexivity|].
      destruct (Hcell _ _ Hl) as [-> _].
      replace (startOfMonth r - weekday (startOfMonth r)
               + Z.of_nat (pred (length (generateCalendarDays r))))
        with (endOfMonth r + (6 - weekday (endOfMonth r))) by lia.
      split; [apply saturday_on_or_after|lia].
    + apply lookup_ge_None in Hl. lia.
  - exact Hcell.
Qed.

(** The third cell of January 2025 is Tuesday 31 December 2024. *)
Lemma generateCalendarDays_whole_weeks_witness :
  exists cell,
    generateCalendarDays Samples.january2025 !! 2%nat = Some cell /\
    date cell = 20088 /\ inMonth cell = false.
Proof.
  exists (mkDay 20088 false). split; [reflexivity|].
  destruct (generateCalendarDays_whole_weeks Samples.january2025)
    as (_ & _ & _ & Hcell).
  destruct (Hcell 2%nat (mkDay 20088 false) eq_refl) as [Hd _].
  split; [exact Hd | reflexivity].
Defined.

(** A month starting on a Wednesday: three leading days of the previous
    month, flagged as outside the month, then the 1st. *)
Example scenario_wednesday_start :
  weekday (startOfMonth Samples.january2025) = 3 /\
  take 4 (generateCalendarDays Samples.january2025)
  = [mkDay 20086 false; mkDay 20087 false; mkDay 20088 false; mkDay 20089 true] /\
  length (generateCalendarDays Samples.january2025) = 35%nat.
Proof. repeat split. Qed.

(** *** The month table agrees with the day count *)

Lemma isLeap_spec y :
  isLeap y = true <-> (y mod 4 = 0 /\ y mod 100 <> 0) \/ y mod 400 = 0.
Proof.
  unfold isLeap.
  rewrite orb_true_iff, andb_true_iff, negb_true_iff, !Z.eqb_eq, Z.eqb_neq.
  reflexivity.
Qed.

Lemma daysFromCivil_marchStart y m d :
  daysFromCivil y m d
  = marchStart (if m <? 2 then y - 1 else y)
    + (153 * (if m <? 2 then m + 10 else m - 2) + 2) / 5 + d - 1 - 719468.
Proof. unfold daysFromCivil, marchStart. cbn zeta. lia. Qed.

Lemma marchStart_succ y :
  marchStart y = marchStart (y - 1) + 365 + (if isLeap y then 1 else 0).
Proof.
  pose proof (isLeap_spec y) as Hleap. unfold marchStart. cbn zeta.
  destruct (isLeap y); Z.div_mod_to_equations; lia.
Qed.

(** The 1st of the next month comes [daysInMonth] days after the 1st. *)
Lemma next_month_start y m :
  0 <= m < 11 ->
  daysFromCivil y (m + 1) 1 = daysFromCivil y m 1 + daysInMonth y m.
Proof.
  intros Hm.
  assert (m = 0 \/ m = 1 \/ m = 2 \/ m = 3 \/ m = 4 \/ m = 5 \/ m = 6 \/ m = 7
          \/ m = 8 \/ m = 9 \/ m = 10) as Hcases by lia.
  rewrite !daysFromCivil_marchStart. unfold daysInMonth.
  pose proof (marchStart_succ y) as Hy.
  repeat destruct Hcases as [->|Hcases]; try subst m;
    cbn [Z.eqb Z.ltb Z.compare Pos.compare Pos.compare_cont Pos.eqb orb];
    repeat match goal with
    | |- context [if ?a <? ?b then _ else _] =>
        destruct (Z.ltb_spec a b); [try (exfalso; lia)|try (exfalso; lia)]
    end; destruct (isLeap y); Z.div_mod_to_equations; lia.
Qed.

Lemma next_year_start y :
  daysFromCivil (y + 1) 0 1 = daysFromCivil y 11 1 + daysInMonth y 11.
Proof.
  rewrite !daysFromCivil_marchStart. unfold daysInMonth.
  cbn [Z.eqb Z.ltb Z.compare Pos.compare Pos.compare_cont Pos.eqb orb].
  replace (y + 1 - 1) with y by lia. Z.div_mod_to_equations; lia.
Qed.

Example epoch_is_thursday : daysFromCivil 1970 0 1 = 0 /\ weekday 0 = 4.
Proof. split; reflexivity. Qed.

End CalendarFacts.

(** ** Further properties of the statistics engine *)

Section StatisticsMore.
Import Statistics.

Implicit Types (l : list CalendarEvent) (e : CalendarEvent).

Lemma countWhere_permutation (P : AttendanceStatus -> Prop)
    `{!forall s, Decision (P s)} l l' :
  l ≡ₚ l' -> countWhere P l = countWhere P l'.
Proof.
  intros Hp. unfold countWhere. f_equal.
  apply Permutation_length. apply filter_Permutation. exact Hp.
Qed.

(** Filtering on a class of statuses keeps the count of any narrower
    class. *)
Lemma countWhere_filter (P R : AttendanceStatus -> Prop)
    `{!forall s, Decision (P s)} `{!forall s, Decision (R s)} l :
  (forall s, P s -> R s) ->
  countWhere P (filter (fun e => R (status e)) l) = countWhere P l.
Proof.
  intros Himp. induction l as [|e l IH]; [reflexivity|].
  rewrite filter_cons, (countWhere_cons P e l).
  destruct (decide (R (status e))) as [Hr|Hr].
  - rewrite countWhere_cons, IH. reflexivity.
  - rewrite IH. rewrite decide_False; [lia|]. intros Hp. apply Hr, Himp, Hp.
Qed.

(** [total], [percentage] and [neededFor75] are computed from [attended]
    and [absent] alone. *)
Lemma settled_counts_determine l l' :
  attended (calculateStats l) = attended (calculateStats l') ->
  absent (calculateStats l) = absent (calculateStats l') ->
  total (calculateStats l) = total (calculateStats l') /\
  percentage (calculateStats l) = percentage (calculateStats l') /\
  neededFor75 (calculateStats l) = neededFor75 (calculateStats l').
Proof.
  intros Ha Hb.
  destruct (calculateStats_fields l) as (_ & _ & Ht & Hp & Hn).
  destruct (calculateStats_fields l') as (_ & _ & Ht' & Hp' & Hn').
  cbn zeta in *.
  assert (total (calculateStats l) = total (calculateStats l')) as Htt by lia.
  split; [exact Htt|]. rewrite Hp, Hp', Hn, Hn', Htt, Ha. split; reflexivity.
Qed.

(** A quotient of integers against 0 and 1. *)
Lemma ratio_vs_0 (a b : Z) :
  0 < b ->
  ((0 <= inject_Z a / inject_Z b)%Q <-> 0 <= a) /\
  ((inject_Z a / inject_Z b <= 0)%Q <-> a <= 0).
Proof.
  intros Hb. destruct b as [|b|b]; try lia.
  unfold Qle, Qdiv, Qmult, Qinv, inject_Z. cbn [Qnum Qden]. split; lia.
Qed.

Lemma ratio_vs_1 (a b : Z) :
  0 < b ->
  ((inject_Z a / inject_Z b <= 1)%Q <-> a <= b) /\
  ((1 <= inject_Z a / inject_Z b)%Q <-> b <= a).
Proof.
  intros Hb. destruct b as [|b|b]; try lia.
  unfold Qle, Qdiv, Qmult, Qinv, inject_Z. cbn [Qnum Qden]. split; lia.
Qed.

(** X1. The result does not depend on the order of the events. *)
Theorem calculateStats_permutation l l' :
  l ≡ₚ l' -> calculateStats l = calculateStats l'.
Proof.
  intros Hp. unfold calculateStats. rewrite !countAll_spec.
  rewrite !(countWhere_permutation _ l l' Hp). reflexivity.
Qed.

Lemma calculateStats_permutation_witness :
  calculateStats (rev Samples.oneOfThree) = calculateStats Samples.oneOfThree.
Proof.
  apply (calculateStats_permutation (rev Samples.oneOfThree) Samples.oneOfThree).
  apply Permutation_sym, Permutation_rev.
Defined.

(** X2. The counters of two lists put together are the sums of their
    counters. *)
Theorem calculateStats_app l1 l2 :
  let s := calculateStats (l1 ++ l2) in
  let s1 := calculateStats l1 in
  let s2 := calculateStats l2 in
  attended s = attended s1 + attended s2 /\
  absent s = absent s1 + absent s2 /\
  suspended s = suspended s1 + suspended s2 /\
  excused s = excused s1 + excused s2 /\
  pending s = pending s1 + pending s2 /\
  total s = total s1 + total s2.
Proof.
  cbn zeta. unfold calculateStats. rewrite !countAll_spec. cbn.
  rewrite !countWhere_app. repeat split; lia.
Qed.

(** X3. Each absence has to be made up for by three attendances:
    [neededFor75 = max(0, 3*absent - attended)], which lies between 0 and
    [3*absent]. *)
Theorem neededFor75_absences l :
  let s := calculateStats l in
  neededFor75 s = Z.max 0 (3 * absent s - attended s) /\
  0 <= neededFor75 s <= 3 * absent s.
Proof.
  pose proof (neededFor75_max l) as Hn.
  destruct (calculateStats_fields l) as (_ & _ & Ht & _).
  pose proof (attended_absent_nonneg l) as [Ha Hb].
  cbn zeta in *. lia.
Qed.

(** X4. [percentage] always lies between 0 and 100. *)
Theorem percentage_range l :
  (0 <= percentage (calculateStats l) <= 100)%Q.
Proof.
  destruct (calculateStats_fields l) as (_ & _ & Ht & Hp & _).
  pose proof (attended_absent_nonneg l) as [Ha Hb].
  cbn zeta in *. rewrite Hp.
  destruct (Z.eqb_spec (total (calculateStats l)) 0) as [E|E].
  - split; discriminate.
  - assert (0 < total (calculateStats l)) as Hpos by lia.
    destruct (ratio_vs_0 (attended (calculateStats l)) _ Hpos) as [Hge0 _].
    destruct (ratio_vs_1 (attended (calculateStats l)) _ Hpos) as [Hle1 _].
    assert (0 <= attended (calculateStats l)) as H0 by lia.
    assert (attended (calculateStats l) <= total (calculateStats l)) as H1 by lia.
    apply Hge0 in H0. apply Hle1 in H1.
    revert H0 H1.
    generalize (inject_Z (attended (calculateStats l))
                / inject_Z (total (calculateStats l)))%Q.
    intros x H0 H1. split; lra.
Qed.

(** X5. [percentage] is 100 exactly when some class is settled and none was
    missed, and 0 exactly when no class was attended. *)
Theorem percentage_extremes l :
  let s := calculateStats l in
  ((percentage s == 100)%Q <-> total s <> 0 /\ absent s = 0) /\
  ((percentage s == 0)%Q <-> attended s = 0).
Proof.
  destruct (calculateStats_fields l) as (_ & _ & Ht & Hp & _).
  pose proof (attended_absent_nonneg l) as [Ha Hb].
  cbn zeta in *. rewrite Hp.
  destruct (Z.eqb_spec (total (calculateStats l)) 0) as [E|E].
  - split; split.
    + intros H. discriminate H.
    + intros [H _]. contradiction.
    + intros _. lia.
    + intros _. reflexivity.
  - assert (0 < total (calculateStats l)) as Hpos by lia.
    assert (forall x : Q, (x * 100 == 100)%Q <-> (x <= 1 /\ 1 <= x)%Q) as H100.
    { intros x. split; [intros Hx; split; lra | intros [? ?]; lra]. }
    assert (forall x : Q, (x * 100 == 0)%Q <-> (x <= 0 /\ 0 <= x)%Q) as H0.
    { intros x. split; [intros Hx; split; lra | intros [? ?]; lra]. }
    rewrite H100, H0.
    destruct (ratio_vs_0 (attended (calculateStats l)) _ Hpos) as [Hge0 Hle0].
    destruct (ratio_vs_1 (attended (calculateStats l)) _ Hpos) as [Hle1 Hge1].
    rewrite Hge0, Hle0, Hle1, Hge1. lia.
Qed.

End StatisticsMore.

(** ** Settled classes and single steps *)

Section StatisticsSteps.
Import Statistics.

Implicit Types (l : list CalendarEvent) (e : CalendarEvent).

Lemma calculateStats_unsettled_fields l :
  let s := calculateStats l in
  suspended s = countWhere (fun st => st = SUSPENDED) l /\
  excused s = countWhere (fun st => st = EXCUSED) l /\
  pending s = countWhere (fun st => st ∉ named) l.
Proof. unfold calculateStats. rewrite countAll_spec. cbn. repeat split. Qed.

(** Filtering on a class of statuses leaves nothing of a disjoint class. *)
Lemma countWhere_filter_disjoint (P R : AttendanceStatus -> Prop)
    `{!forall s, Decision (P s)} `{!forall s, Decision (R s)} l :
  (forall s, R s -> ~ P s) ->
  countWhere P (filter (fun e => R (status e)) l) = 0.
Proof.
  intros Hdis. induction l as [|e l IH]; [reflexivity|].
  rewrite filter_cons. destruct (decide (R (status e))) as [Hr|Hr]; [|exact IH].
  rewrite countWhere_cons, IH, decide_False; [lia|]. apply Hdis, Hr.
Qed.

(** X6. Only the settled classes matter for the rate: dropping every event that
    is neither ATTENDED nor ABSENT leaves [total], [attended], [absent],
    [percentage] and [neededFor75] as they were, and empties the other
    three counters. *)
Theorem calculateStats_settled_only l :
  let s := calculateStats l in
  let s' := calculateStats
              (filter (fun e => status e = ATTENDED \/ status e = ABSENT) l) in
  total s' = total s /\ attended s' = attended s /\ absent s' = absent s /\
  percentage s' = percentage s /\ neededFor75 s' = neededFor75 s /\
  suspended s' = 0 /\ excused s' = 0 /\ pending s' = 0.
Proof.
  cbn zeta.
  assert (attended (calculateStats
            (filter (fun e => status e = ATTENDED \/ status e = ABSENT) l))
          = attended (calculateStats l)) as Ha.
  { destruct (calculateStats_fields
                (filter (fun e => status e = ATTENDED \/ status e = ABSENT) l))
      as (-> & _).
    destruct (calculateStats_fields l) as (-> & _).
    refine (countWhere_filter (fun s => s = ATTENDED)
             (fun s => s = ATTENDED \/ s = ABSENT) l _); tauto. }
  assert (absent (calculateStats
            (filter (fun e => status e = ATTENDED \/ status e = ABSENT) l))
          = absent (calculateStats l)) as Hb.
  { destruct (calculateStats_fields
                (filter (fun e => status e = ATTENDED \/ status e = ABSENT) l))
      as (_ & -> & _).
    destruct (calculateStats_fields l) as (_ & -> & _).
    refine (countWhere_filter (fun s => s = ABSENT)
             (fun s => s = ATTENDED \/ s = ABSENT) l _); tauto. }
  destruct (settled_counts_determine _ l Ha Hb) as (Ht & Hp & Hn).
  destruct (calculateStats_unsettled_fields
              (filter (fun e => status e = ATTENDED \/ status e = ABSENT) l))
    as (Hs & He & Hpe).
  cbn zeta in *. rewrite Hs, He, Hpe.
  repeat split; try assumption;
    [refine (countWhere_filter_disjoint (fun s => s = SUSPENDED)
              (fun s => s = ATTENDED \/ s = ABSENT) l _)
    |refine (countWhere_filter_disjoint (fun s => s = EXCUSED)
              (fun s => s = ATTENDED \/ s = ABSENT) l _)
    |refine (countWhere_filter_disjoint (fun s => s ∉ named)
              (fun s => s = ATTENDED \/ s = ABSENT) l _)].
  - intros s [-> | ->]; unfold ATTENDED, ABSENT, SUSPENDED; discriminate.
  - intros s [-> | ->]; unfold ATTENDED, ABSENT, EXCUSED; discriminate.
  - intros s [-> | ->] Hnot; apply Hnot; unfold named;
      rewrite !elem_of_cons; tauto.
Qed.

(** X7. One more attendance brings the number of classes needed down by one
    (never below 0); one more absence raises it by at most three, and by
    exactly three when the rate is not above 75 percent. *)
Theorem neededFor75_step l e :
  let n := neededFor75 (calculateStats l) in
  let n' := neededFor75 (calculateStats (l ++ [e])) in
  (status e = ATTENDED -> n' = Z.max 0 (n - 1)) /\
  (status e = ABSENT -> n <= n' <= n + 3) /\
  (status e = ABSENT ->
   4 * attended (calculateStats l) <= 3 * total (calculateStats l) ->
   n' = n + 3).
Proof.
  pose proof (neededFor75_max l) as Hn.
  pose proof (neededFor75_max (l ++ [e])) as Hn'.
  destruct (calculateStats_fields l) as (_ & _ & Ht & _).
  destruct (calculateStats_fields (l ++ [e])) as (_ & _ & Ht' & _).
  cbn zeta in *. split; [|split].
  - intros He. destruct (calculateStats_snoc_attended l e He) as [Ha Hb]. lia.
  - intros He. destruct (calculateStats_snoc_absent l e He) as [Ha Hb]. lia.
  - intros He Hraw. destruct (calculateStats_snoc_absent l e He) as [Ha Hb]. lia.
Qed.

Lemma neededFor75_step_witness :
  neededFor75 (calculateStats (Samples.oneOfThree ++ [Samples.lecture "d" ATTENDED]))
  = Z.max 0 (neededFor75 (calculateStats Samples.oneOfThree) - 1) /\
  neededFor75 (calculateStats (Samples.oneOfThree ++ [Samples.lecture "d" ABSENT]))
  = neededFor75 (calculateStats Samples.oneOfThree) + 3.
Proof.
  split.
  - apply (neededFor75_step Samples.oneOfThree (Samples.lecture "d" ATTENDED)).
    reflexivity.
  - apply (neededFor75_step Samples.oneOfThree (Samples.lecture "d" ABSENT)).
    + reflexivity.
    + vm_compute. discriminate.
Defined.

End StatisticsSteps.

(** ** Subject filter *)

Section SidebarFacts.
Import Statistics Store Sidebar.

Implicit Types (events l : list CalendarEvent) (e : CalendarEvent).
Implicit Types (xs acc : list string) (x t : string).

Lemma setAdd_nil x : setAdd [] x = [x].
Proof. reflexivity. Qed.

(** Inserting into a set that already has elements: the new elements come
    after the old ones, in the order they would have had on their own. *)
Lemma setAdd_fold xs acc :
  fold_left setAdd xs acc
  = acc ++ filter (fun y => y ∉ acc) (fold_left setAdd xs []).
Proof.
  revert acc. induction xs as [|x xs IH]; intros acc.
  - simpl. rewrite filter_nil, app_nil_r. reflexivity.
  - simpl fold_left. rewrite (IH (setAdd acc x)), (IH (setAdd [] x)), setAdd_nil.
    unfold setAdd. case_bool_decide as Hx.
    + f_equal. rewrite filter_app.
      rewrite filter_cons_False by (intros Hn; apply Hn, Hx).
      rewrite filter_nil. cbn [app].
      rewrite list_filter_filter. apply list_filter_iff.
      intros y. rewrite list_elem_of_singleton. split; [|tauto].
      intros Hy. split; [exact Hy|]. intros ->. contradiction.
    + rewrite <- (assoc_L (++)). f_equal.
      rewrite filter_app, filter_cons_True by exact Hx.
      rewrite filter_nil. cbn [app]. f_equal.
      rewrite list_filter_filter. apply list_filter_iff.
      intros y. rewrite not_elem_of_app. reflexivity.
Qed.

Lemma arrayFromSet_cons x xs :
  arrayFromSet (x :: xs) = x :: filter (fun y => y <> x) (arrayFromSet xs).
Proof.
  unfold arrayFromSet. simpl fold_left. rewrite setAdd_nil, setAdd_fold.
  cbn [app]. f_equal. apply list_filter_iff.
  intros y. rewrite list_elem_of_singleton. reflexivity.
Qed.

Lemma arrayFromSet_elem_of xs x : x ∈ arrayFromSet xs <-> x ∈ xs.
Proof.
  induction xs as [|y xs IH]; [reflexivity|].
  rewrite arrayFromSet_cons, !elem_of_cons, list_elem_of_filter, IH.
  destruct (decide (x = y)); tauto.
Qed.

Lemma arrayFromSet_NoDup xs : NoDup (arrayFromSet xs).
Proof.
  induction xs as [|y xs IH]; [apply NoDup_nil_2|].
  rewrite arrayFromSet_cons. apply NoDup_cons. split.
  - rewrite list_elem_of_filter. tauto.
  - apply NoDup_filter, IH.
Qed.

(** X8. The filter lists every title that occurs, once. *)
Theorem uniqueTitles_complete events :
  NoDup (uniqueTitles events) /\
  (forall t, t ∈ uniqueTitles events <-> exists e, e ∈ events /\ title e = t).
Proof.
  unfold uniqueTitles. split; [apply arrayFromSet_NoDup|].
  intros t. rewrite arrayFromSet_elem_of.
  change (map title events) with (title <$> events).
  rewrite list_elem_of_fmap. split; intros (e & H1 & H2); exists e; auto.
Qed.

(** X9. The titles are listed in the order of their first event: the title of
    the first event comes first, followed by the other titles of the rest. *)
Theorem uniqueTitles_first_occurrence e events :
  uniqueTitles (e :: events)
  = title e :: filter (fun t => t <> title e) (uniqueTitles events).
Proof. unfold uniqueTitles. simpl map. apply arrayFromSet_cons. Qed.

(** X10. An import keeps the titles already listed in place and adds the new
    ones after them. *)
Theorem uniqueTitles_import prev parsedEvents :
  uniqueTitles (handleFileUpload parsedEvents prev)
  = uniqueTitles prev
    ++ filter (fun t => t ∉ uniqueTitles prev) (uniqueTitles parsedEvents).
Proof.
  unfold uniqueTitles, handleFileUpload, arrayFromSet.
  rewrite map_app, fold_left_app. apply setAdd_fold.
Qed.

End SidebarFacts.

(** ** Statistics per subject *)

Section FilterFacts.
Import Statistics Store Sidebar.

Implicit Types (events l : list CalendarEvent) (e : CalendarEvent).
Implicit Types (ts : list string) (t : string).

(** For a selection other than "All" the subset is the events of that
    title. *)
Lemma subset_title t events :
  t <> "All" -> subset t events = filter (fun e => title e = t) events.
Proof.
  intros Ht. unfold subset.
  destruct (String.eqb_spec t "All") as [|_]; [contradiction|].
  induction events as [|e events IH]; [reflexivity|].
  simpl List.filter. rewrite filter_cons, IH.
  destruct (String.eqb_spec (title e) t); case_decide; congruence.
Qed.

Lemma subset_sublist t events : subset t events `sublist_of` events.
Proof.
  destruct (decide (t = "All")) as [->|Ht]; [reflexivity|].
  rewrite subset_title by exact Ht. apply sublist_filter.
Qed.

Lemma countWhere_sublist (P : AttendanceStatus -> Prop)
    `{!forall s, Decision (P s)} l1 l2 :
  l1 `sublist_of` l2 -> countWhere P l1 <= countWhere P l2.
Proof.
  induction 1 as [|x l1 l2 _ IH|x l1 l2 _ IH]; [reflexivity| |];
    rewrite ?countWhere_cons; case_decide; lia.
Qed.

Lemma sumZ_cons (z : Z) (zs : list Z) : sumZ (z :: zs) = z + sumZ zs.
Proof. reflexivity. Qed.

Lemma sumZ_ext {A} (f g : A -> Z) (xs : list A) :
  (forall x, x ∈ xs -> f x = g x) -> sumZ (f <$> xs) = sumZ (g <$> xs).
Proof.
  induction xs as [|x xs IH]; intros Hfg; [reflexivity|].
  rewrite !fmap_cons, !sumZ_cons, (Hfg x) by apply list_elem_of_here. f_equal.
  apply IH. intros y Hy. apply Hfg, list_elem_of_further, Hy.
Qed.

Lemma sumZ_plus {A} (f g : A -> Z) (xs : list A) :
  sumZ ((fun x => f x + g x) <$> xs) = sumZ (f <$> xs) + sumZ (g <$> xs).
Proof.
  induction xs as [|x xs IH]; [reflexivity|].
  rewrite !fmap_cons, !sumZ_cons, IH. lia.
Qed.

Lemma sumZ_zero {A} (xs : list A) : sumZ ((fun _ => 0) <$> xs) = 0.
Proof.
  induction xs as [|x xs IH]; [reflexivity|].
  rewrite fmap_cons, sumZ_cons, IH. reflexivity.
Qed.

Lemma sumZ_indicator ts t (c : Z) :
  NoDup ts ->
  sumZ ((fun t' => if decide (t = t') then c else 0) <$> ts)
  = if decide (t ∈ ts) then c else 0.
Proof.
  induction 1 as [|t' ts Hnotin _ IH]; [reflexivity|].
  rewrite fmap_cons, sumZ_cons, IH. destruct (decide (t = t')) as [->|Hne].
  - rewrite decide_False by exact Hnotin.
    rewrite decide_True by apply list_elem_of_here. lia.
  - destruct (decide (t ∈ ts)) as [Hin|Hin].
    + rewrite decide_True by (apply list_elem_of_further, Hin). lia.
    + rewrite decide_False; [lia|]. rewrite elem_of_cons. tauto.
Qed.

(** Splitting by title: over a duplicate-free list of titles that covers
    the events, the counts per title add up to the count over all. *)
Lemma countWhere_by_title (P : AttendanceStatus -> Prop)
    `{!forall s, Decision (P s)} ts l :
  NoDup ts -> (forall e, e ∈ l -> title e ∈ ts) ->
  sumZ ((fun t => countWhere P (filter (fun e => title e = t) l)) <$> ts)
  = countWhere P l.
Proof.
  intros Hnd. induction l as [|e l IH]; intros Hcov.
  - rewrite (sumZ_ext _ (fun _ => 0)) by reflexivity. apply sumZ_zero.
  - rewrite (sumZ_ext _
       (fun t => (if decide (title e = t)
                  then (if decide (P (status e)) then 1 else 0) else 0)
                 + countWhere P (filter (fun e => title e = t) l))).
    + rewrite sumZ_plus, sumZ_indicator by exact Hnd.
      rewrite decide_True by apply Hcov, list_elem_of_here.
      rewrite IH, countWhere_cons; [reflexivity|].
      intros e' He'. apply Hcov, list_elem_of_further, He'.
    + intros t _. rewrite filter_cons.
      destruct (decide (title e = t)); [apply countWhere_cons|lia].
Qed.

(** X11. A selected subject shows only events of that title, in their original
    order, and all of them. *)
Theorem subset_selected t events :
  t <> "All" ->
  Forall (fun e => title e = t) (subset t events) /\
  subset t events `sublist_of` events /\
  (forall e, e ∈ events -> title e = t -> e ∈ subset t events).
Proof.
  intros Ht. split; [|split].
  - rewrite subset_title by exact Ht. apply Forall_forall.
    intros e He. apply list_elem_of_filter in He. tauto.
  - apply subset_sublist.
  - intros e He Hte. rewrite subset_title by exact Ht.
    apply list_elem_of_filter. tauto.
Qed.

Lemma subset_selected_witness :
  subset "Physics" Samples.timetable
  `sublist_of` Samples.timetable /\
  Samples.physics "p2" ATTENDED ∈ subset "Physics" Samples.timetable.
Proof.
  destruct (subset_selected "Physics" Samples.timetable) as (_ & Hsub & Hall);
    [discriminate|].
  split; [exact Hsub|]. apply Hall; [|reflexivity].
  do 3 apply list_elem_of_further. apply list_elem_of_here.
Defined.

(** X12. A selection that is the title of no event (and is not "All") shows
    nothing: every counter, the percentage and the classes needed are 0. *)
Theorem currentStats_unknown_title t events :
  t <> "All" -> t ∉ uniqueTitles events ->
  subset t events = [] /\
  currentStats t events = mkStats 0 0 0 0 0 0 0%Q 0.
Proof.
  intros Ht Hnot.
  assert (subset t events = []) as Hempty.
  { rewrite subset_title by exact Ht.
    destruct (filter (fun e => title e = t) events) as [|e k] eqn:Hk;
      [reflexivity|].
    exfalso. apply Hnot. unfold uniqueTitles. apply arrayFromSet_elem_of.
    assert (e ∈ filter (fun e => title e = t) events) as He
      by (rewrite Hk; apply list_elem_of_here).
    apply list_elem_of_filter in He as [<- He].
    change (map title events) with (title <$> events).
    apply list_elem_of_fmap. exists e. split; [reflexivity|exact He]. }
  split; [exact Hempty|]. unfold currentStats. rewrite Hempty. reflexivity.
Qed.

End FilterFacts.

(** ** Per-subject statistics against the overall statistics *)

Section SubjectTotals.
Import Statistics Store Sidebar.

Implicit Types (events l : list CalendarEvent) (e : CalendarEvent) (t : string).

Lemma currentStats_unknown_title_witness :
  currentStats "Chemistry" Samples.timetable = mkStats 0 0 0 0 0 0 0%Q 0.
Proof.
  apply (currentStats_unknown_title "Chemistry" Samples.timetable).
  - discriminate.
  - unfold uniqueTitles. rewrite arrayFromSet_elem_of.
    intros Hin. vm_compute in Hin.
    repeat (apply elem_of_cons in Hin as [Hin|Hin]; [discriminate|]).
    apply elem_of_nil in Hin. exact Hin.
Defined.

Lemma counters_of_subset t l :
  let s := calculateStats (subset t l) in
  attended s = countWhere (fun st => st = ATTENDED) (subset t l) /\
  absent s = countWhere (fun st => st = ABSENT) (subset t l) /\
  suspended s = countWhere (fun st => st = SUSPENDED) (subset t l) /\
  excused s = countWhere (fun st => st = EXCUSED) (subset t l) /\
  pending s = countWhere (fun st => st ∉ named) (subset t l) /\
  total s = attended s + absent s.
Proof. unfold calculateStats. rewrite countAll_spec. cbn. repeat split. Qed.

(** X13. Whatever is selected, no counter exceeds the one shown for "All". *)
Theorem currentStats_bounded t events :
  let s := currentStats t events in
  let a := currentStats "All" events in
  attended s <= attended a /\ absent s <= absent a /\
  suspended s <= suspended a /\ excused s <= excused a /\
  pending s <= pending a /\ total s <= total a.
Proof.
  cbn zeta. unfold currentStats.
  destruct (counters_of_subset t events) as (-> & -> & -> & -> & -> & ->).
  destruct (counters_of_subset "All" events) as (-> & -> & -> & -> & -> & ->).
  change (subset "All" events) with events.
  pose proof (subset_sublist t events) as Hsub.
  pose proof (countWhere_sublist (fun st => st = ATTENDED) _ _ Hsub).
  pose proof (countWhere_sublist (fun st => st = ABSENT) _ _ Hsub).
  pose proof (countWhere_sublist (fun st => st = SUSPENDED) _ _ Hsub).
  pose proof (countWhere_sublist (fun st => st = EXCUSED) _ _ Hsub).
  pose proof (countWhere_sublist (fun st => st ∉ named) _ _ Hsub).
  repeat split; lia.
Qed.

(** X14. Unless a subject is itself called "All", the statistics of the
    subjects of the filter add up to the overall statistics, counter by
    counter. *)
Theorem currentStats_by_subject events :
  "All" ∉ uniqueTitles events ->
  let a := currentStats "All" events in
  let per (f : Stats -> Z) :=
    sumZ ((fun t => f (currentStats t events)) <$> uniqueTitles events) in
  per attended = attended a /\ per absent = absent a /\
  per suspended = suspended a /\ per excused = excused a /\
  per pending = pending a /\ per total = total a.
Proof.
  intros Hall. cbn zeta.
  assert (NoDup (uniqueTitles events)) as Hnd by apply arrayFromSet_NoDup.
  assert (forall e, e ∈ events -> title e ∈ uniqueTitles events) as Hcov.
  { intros e He. unfold uniqueTitles. apply arrayFromSet_elem_of.
    change (map title events) with (title <$> events).
    apply list_elem_of_fmap. exists e. split; [reflexivity|exact He]. }
  assert (forall t, t ∈ uniqueTitles events ->
            subset t events = filter (fun e => title e = t) events) as Hsub.
  { intros t Ht. apply subset_title. intros ->. contradiction. }
  assert (forall (P : AttendanceStatus -> Prop) (Hdec : forall s, Decision (P s)),
            sumZ ((fun t => countWhere P (subset t events)) <$> uniqueTitles events)
            = countWhere P events) as Hsum.
  { intros P Hdec.
    rewrite (sumZ_ext _
               (fun t => countWhere P (filter (fun e => title e = t) events))).
    - apply countWhere_by_title; assumption.
    - intros t Ht. rewrite (Hsub t Ht). reflexivity. }
  unfold currentStats.
  destruct (counters_of_subset "All" events) as (-> & -> & -> & -> & -> & ->).
  change (subset "All" events) with events.
  repeat split.
  - rewrite <- (Hsum (fun st => st = ATTENDED) _). apply sumZ_ext.
    intros t _. apply counters_of_subset.
  - rewrite <- (Hsum (fun st => st = ABSENT) _). apply sumZ_ext.
    intros t _. apply counters_of_subset.
  - rewrite <- (Hsum (fun st => st = SUSPENDED) _). apply sumZ_ext.
    intros t _. apply counters_of_subset.
  - rewrite <- (Hsum (fun st => st = EXCUSED) _). apply sumZ_ext.
    intros t _. apply counters_of_subset.
  - rewrite <- (Hsum (fun st => st ∉ named) _). apply sumZ_ext.
    intros t _. apply counters_of_subset.
  - rewrite <- (Hsum (fun st => st = ATTENDED) _),
            <- (Hsum (fun st => st = ABSENT) _), <- sumZ_plus.
    apply sumZ_ext. intros t _.
    destruct (counters_of_subset t events) as (-> & -> & _ & _ & _ & ->).
    reflexivity.
Qed.

Lemma currentStats_by_subject_witness :
  uniqueTitles Samples.timetable = ["Maths"; "Physics"] /\
  attended (currentStats "Maths" Samples.timetable)
  + attended (currentStats "Physics" Samples.timetable)
  = attended (currentStats "All" Samples.timetable).
Proof.
  split; [reflexivity|].
  assert ("All" ∉ uniqueTitles Samples.timetable) as Hall.
  { unfold uniqueTitles. rewrite arrayFromSet_elem_of.
    intros Hin. vm_compute in Hin.
    repeat (apply elem_of_cons in Hin as [Hin|Hin]; [discriminate|]).
    apply elem_of_nil in Hin. exact Hin. }
  destruct (currentStats_by_subject Samples.timetable Hall) as (Hatt & _).
  rewrite <- Hatt. reflexivity.
Defined.

End SubjectTotals.

(** ** The cards of the sidebar *)

Section CardFacts.
Import Statistics Sidebar.

Implicit Types (l : list CalendarEvent) (p : Q).

Lemma below75_spec p : below75 p = true <-> (p < 75)%Q.
Proof.
  unfold below75. rewrite Qlt_alt.
  destruct (p ?= 75)%Q; split; intros; congruence.
Qed.

Lemma atLeast75_spec p : atLeast75 p = true <-> (75 <= p)%Q.
Proof.
  unfold atLeast75. rewrite Qle_alt, <- Qgt_alt, Qlt_alt.
  destruct (p ?= 75)%Q; split; intros; congruence.
Qed.

Lemma atLeast75_below75 p : atLeast75 p = negb (below75 p).
Proof. unfold atLeast75, below75. destruct (p ?= 75)%Q; reflexivity. Qed.

(** X15. The rate card never contradicts itself: it is green exactly when it
    says "Good Standing", which is exactly when some class is settled and
    at least three quarters of the settled classes were attended.  When it
    says so, the target card says "Keep it up!". *)
Theorem rate_card_standing l :
  let s := calculateStats l in
  (rateColor s = "green" <-> rateSubtext s = "Good Standing") /\
  (rateSubtext s = "Good Standing"
   <-> total s <> 0 /\ 3 * total s <= 4 * attended s) /\
  (rateSubtext s = "Good Standing" -> targetSubtext s = "Keep it up!").
Proof.
  cbn zeta.
  assert (rateSubtext (calculateStats l) = "Good Standing"
          <-> (75 <= percentage (calculateStats l))%Q) as Hsub.
  { unfold rateSubtext. rewrite <- atLeast75_spec, atLeast75_below75.
    destruct (below75 _); split; intros; (discriminate || reflexivity). }
  assert (rateColor (calculateStats l) = "green"
          <-> (75 <= percentage (calculateStats l))%Q) as Hcol.
  { unfold rateColor. rewrite <- atLeast75_spec.
    destruct (atLeast75 _); split; intros; (discriminate || reflexivity). }
  assert ((75 <= percentage (calculateStats l))%Q
          <-> total (calculateStats l) <> 0
              /\ 3 * total (calculateStats l) <= 4 * attended (calculateStats l))
    as Hrate.
  { destruct (calculateStats_fields l) as (_ & _ & Ht & Hp & _).
    pose proof (attended_absent_nonneg l) as [Ha Hb].
    cbn zeta in *. rewrite Hp.
    destruct (Z.eqb_spec (total (calculateStats l)) 0) as [E|E].
    - split; [intros H; exfalso; revert H; apply Qlt_not_le; reflexivity|].
      intros [H _]. contradiction.
    - rewrite percent_ge_75, ratio_ge_three_quarters by lia. tauto. }
  split; [rewrite Hsub, Hcol; reflexivity|]. split; [rewrite Hsub; exact Hrate|].
  intros Hgood. apply Hsub, Hrate in Hgood as [_ Hle].
  unfold targetSubtext. pose proof (neededFor75_max l) as Hn. cbn zeta in Hn.
  destruct (neededFor75 (calculateStats l) >? 0) eqn:E; [lia|reflexivity].
Qed.

Lemma rate_card_standing_witness :
  rateSubtext (calculateStats Samples.threeOfFour) = "Good Standing" /\
  targetSubtext (calculateStats Samples.threeOfFour) = "Keep it up!".
Proof.
  split; [reflexivity|].
  apply (rate_card_standing Samples.threeOfFour). reflexivity.
Defined.

End CardFacts.

(** ** Further properties of the store *)

Section StoreMore.
Import Statistics Store.

Implicit Types (events prev parsedEvents l : list CalendarEvent).
Implicit Types (updated e u : CalendarEvent).

(** With unique ids, an update of the id found at position [i] overwrites
    that position and nothing else. *)
Lemma handleUpdateEvent_insert events updated (i : nat) e :
  NoDup (id <$> events) -> events !! i = Some e -> id e = id updated ->
  handleUpdateEvent events updated = <[i := updated]> events.
Proof.
  intros Hnodup Hi Hid. apply list_eq. intros j.
  rewrite handleUpdateEvent_lookup.
  destruct (decide (i = j)) as [<-|Hne].
  - rewrite list_lookup_insert_eq by (eapply lookup_lt_Some; eassumption).
    rewrite Hi. simpl. rewrite decide_True by assumption. reflexivity.
  - rewrite list_lookup_insert_ne by assumption.
    destruct (events !! j) as [e'|] eqn:Hj; [|reflexivity]. simpl.
    rewrite decide_False; [reflexivity|].
    intros Hid'. apply Hne.
    apply (NoDup_lookup (id <$> events) i j (id updated)); [assumption| |].
    + rewrite list_lookup_fmap, Hi. simpl. congruence.
    + rewrite list_lookup_fmap, Hj. simpl. congruence.
Qed.

Lemma countWhere_insert (P : AttendanceStatus -> Prop)
    `{!forall s, Decision (P s)} l (i : nat) e u :
  l !! i = Some e ->
  countWhere P (<[i := u]> l)
  = countWhere P l - (if decide (P (status e)) then 1 else 0)
    + (if decide (P (status u)) then 1 else 0).
Proof.
  intros Hi.
  rewrite insert_take_drop by (eapply lookup_lt_Some; eassumption).
  rewrite <- (take_drop_middle l i e Hi) at 3.
  rewrite !countWhere_app, !countWhere_cons. lia.
Qed.

(** X16. An update never changes which ids the store holds, nor their order. *)
Theorem handleUpdateEvent_ids events updated :
  id <$> handleUpdateEvent events updated = id <$> events.
Proof.
  unfold handleUpdateEvent. change (map ?f ?l) with (f <$> l).
  rewrite <- list_fmap_compose. apply list_fmap_ext.
  intros _ e _. simpl.
  destruct (String.eqb_spec (id e) (id updated)); congruence.
Qed.

(** X17. Of two updates of the same id the later one wins; in particular an
    update applied twice is the same as applied once. *)
Theorem handleUpdateEvent_last_wins events u1 u2 :
  id u1 = id u2 ->
  handleUpdateEvent (handleUpdateEvent events u1) u2 = handleUpdateEvent events u2.
Proof.
  intros Hid. unfold handleUpdateEvent. rewrite map_map. apply map_ext.
  intros e. rewrite Hid.
  destruct (String.eqb_spec (id e) (id u2)) as [E|E].
  - rewrite Hid, String.eqb_refl. reflexivity.
  - destruct (String.eqb_spec (id e) (id u2)); [contradiction|reflexivity].
Qed.

Lemma handleUpdateEvent_last_wins_witness :
  handleUpdateEvent
    (handleUpdateEvent Samples.oneOfThree (Samples.lecture "b" EXCUSED))
    (Samples.lecture "b" ATTENDED)
  = handleUpdateEvent Samples.oneOfThree (Samples.lecture "b" ATTENDED).
Proof.
  apply (handleUpdateEvent_last_wins Samples.oneOfThree
           (Samples.lecture "b" EXCUSED) (Samples.lecture "b" ATTENDED)).
  reflexivity.
Defined.

(** X18. Updates of different ids can be applied in either order. *)
Theorem handleUpdateEvent_commute events u1 u2 :
  id u1 <> id u2 ->
  handleUpdateEvent (handleUpdateEvent events u1) u2
  = handleUpdateEvent (handleUpdateEvent events u2) u1.
Proof.
  intros Hid. unfold handleUpdateEvent. rewrite !map_map. apply map_ext.
  intros e.
  destruct (String.eqb_spec (id e) (id u1)) as [E1|E1];
    destruct (String.eqb_spec (id e) (id u2)) as [E2|E2];
    try congruence.
  - destruct (String.eqb_spec (id u1) (id u2)); [contradiction|].
    destruct (String.eqb_spec (id e) (id u1)); [reflexivity|contradiction].
  - destruct (String.eqb_spec (id u2) (id u1)); [congruence|].
    destruct (String.eqb_spec (id e) (id u2)); [reflexivity|contradiction].
  - destruct (String.eqb_spec (id e) (id u1)); [contradiction|].
    destruct (String.eqb_spec (id e) (id u2)); [contradiction|reflexivity].
Qed.

Lemma handleUpdateEvent_commute_witness :
  handleUpdateEvent
    (handleUpdateEvent Samples.oneOfThree (Samples.lecture "b" ATTENDED))
    (Samples.lecture "c" EXCUSED)
  = handleUpdateEvent
      (handleUpdateEvent Samples.oneOfThree (Samples.lecture "c" EXCUSED))
      (Samples.lecture "b" ATTENDED).
Proof.
  apply (handleUpdateEvent_commute Samples.oneOfThree
           (Samples.lecture "b" ATTENDED) (Samples.lecture "c" EXCUSED)).
  discriminate.
Defined.

(** X19. With unique ids, saving an event of the store as it is changes
    nothing. *)
Theorem handleUpdateEvent_unchanged events e :
  NoDup (id <$> events) -> e ∈ events -> handleUpdateEvent events e = events.
Proof.
  intros Hnodup He. apply list_elem_of_lookup in He as [i Hi].
  rewrite (handleUpdateEvent_insert events e i e Hnodup Hi eq_refl).
  apply list_insert_id, Hi.
Qed.

Lemma handleUpdateEvent_unchanged_witness :
  handleUpdateEvent Samples.oneOfThree (Samples.lecture "b" ABSENT)
  = Samples.oneOfThree.
Proof.
  apply (handleUpdateEvent_unchanged Samples.oneOfThree (Samples.lecture "b" ABSENT)).
  - apply NoDup_ListNoDup. vm_compute.
    repeat (constructor; [simpl; intuition discriminate|]). constructor.
  - apply list_elem_of_further, list_elem_of_here.
Defined.

(** An update reaches the imported events like the earlier ones: updating
    after an import is importing the updated events into the updated
    store. *)
Theorem handleUpdateEvent_import prev parsedEvents updated :
  handleUpdateEvent (handleFileUpload parsedEvents prev) updated
  = handleFileUpload (handleUpdateEvent parsedEvents updated)
                     (handleUpdateEvent prev updated).
Proof. unfold handleUpdateEvent, handleFileUpload. apply map_app. Qed.

End StoreMore.

(** ** Store operations and the statistics *)

Section StoreStatistics.
Import Statistics Store.

Implicit Types (events prev parsedEvents l : list CalendarEvent).
Implicit Types (updated e : CalendarEvent).

Lemma countWhere_none (P : AttendanceStatus -> Prop)
    `{!forall s, Decision (P s)} l :
  Forall (fun e => ~ P (status e)) l -> countWhere P l = 0.
Proof.
  induction 1 as [|e l He _ IH]; [reflexivity|].
  rewrite countWhere_cons, IH, decide_False by exact He. reflexivity.
Qed.

(** X20. With unique ids, updating an event moves one unit from the counter of
    its old status to the counter of its new status and touches no other
    counter. *)
Theorem handleUpdateEvent_counts events updated (i : nat) e :
  NoDup (id <$> events) -> events !! i = Some e -> id e = id updated ->
  let s := calculateStats events in
  let s' := calculateStats (handleUpdateEvent events updated) in
  attended s' = attended s - (if decide (status e = ATTENDED) then 1 else 0)
                + (if decide (status updated = ATTENDED) then 1 else 0) /\
  absent s' = absent s - (if decide (status e = ABSENT) then 1 else 0)
              + (if decide (status updated = ABSENT) then 1 else 0) /\
  suspended s' = suspended s - (if decide (status e = SUSPENDED) then 1 else 0)
                 + (if decide (status updated = SUSPENDED) then 1 else 0) /\
  excused s' = excused s - (if decide (status e = EXCUSED) then 1 else 0)
               + (if decide (status updated = EXCUSED) then 1 else 0) /\
  pending s' = pending s - (if decide (status e ∉ named) then 1 else 0)
               + (if decide (status updated ∉ named) then 1 else 0).
Proof.
  intros Hnodup Hi Hid. cbn zeta.
  rewrite (handleUpdateEvent_insert events updated i e Hnodup Hi Hid).
  unfold calculateStats. rewrite !countAll_spec. cbn.
  split; [|split; [|split; [|split]]].
  - exact (countWhere_insert (fun s => s = ATTENDED) events i e updated Hi).
  - exact (countWhere_insert (fun s => s = ABSENT) events i e updated Hi).
  - exact (countWhere_insert (fun s => s = SUSPENDED) events i e updated Hi).
  - exact (countWhere_insert (fun s => s = EXCUSED) events i e updated Hi).
  - exact (countWhere_insert (fun s => s ∉ named) events i e updated Hi).
Qed.

(** Marking the second class of one-attended-out-of-three as attended. *)
Lemma handleUpdateEvent_counts_witness :
  attended (calculateStats
              (handleUpdateEvent Samples.oneOfThree (Samples.lecture "b" ATTENDED)))
  = attended (calculateStats Samples.oneOfThree) - 0 + 1 /\
  absent (calculateStats
            (handleUpdateEvent Samples.oneOfThree (Samples.lecture "b" ATTENDED)))
  = absent (calculateStats Samples.oneOfThree) - 1 + 0.
Proof.
  destruct (handleUpdateEvent_counts Samples.oneOfThree
              (Samples.lecture "b" ATTENDED) 1%nat (Samples.lecture "b" ABSENT))
    as (Hatt & Habs & _).
  - apply NoDup_ListNoDup. vm_compute.
    repeat (constructor; [simpl; intuition discriminate|]). constructor.
  - reflexivity.
  - reflexivity.
  - split; [exact Hatt | exact Habs].
Defined.

(** X21. Importing events none of which is settled (as a fresh schedule, whose
    events are all pending) leaves the rate as it was: [total], [attended],
    [absent], [percentage] and [neededFor75] do not change. *)
Theorem handleFileUpload_unsettled prev parsedEvents :
  Forall (fun e => status e <> ATTENDED /\ status e <> ABSENT) parsedEvents ->
  let s := calculateStats prev in
  let s' := calculateStats (handleFileUpload parsedEvents prev) in
  total s' = total s /\ attended s' = attended s /\ absent s' = absent s /\
  percentage s' = percentage s /\ neededFor75 s' = neededFor75 s.
Proof.
  intros Hun. cbn zeta. unfold handleFileUpload.
  assert (attended (calculateStats (prev ++ parsedEvents))
          = attended (calculateStats prev)) as Ha.
  { destruct (calculateStats_fields (prev ++ parsedEvents)) as (-> & _).
    destruct (calculateStats_fields prev) as (-> & _).
    rewrite countWhere_app, (countWhere_none _ parsedEvents); [lia|].
    eapply Forall_impl; [exact Hun|]. cbv beta. tauto. }
  assert (absent (calculateStats (prev ++ parsedEvents))
          = absent (calculateStats prev)) as Hb.
  { destruct (calculateStats_fields (prev ++ parsedEvents)) as (_ & -> & _).
    destruct (calculateStats_fields prev) as (_ & -> & _).
    rewrite countWhere_app, (countWhere_none _ parsedEvents); [lia|].
    eapply Forall_impl; [exact Hun|]. cbv beta. tauto. }
  destruct (settled_counts_determine _ prev Ha Hb) as (Ht & Hp & Hn).
  repeat split; assumption.
Qed.

Lemma handleFileUpload_unsettled_witness :
  percentage (calculateStats
                (handleFileUpload [Samples.lecture "n1" PENDING] Samples.oneOfThree))
  = percentage (calculateStats Samples.oneOfThree).
Proof.
  apply (handleFileUpload_unsettled Samples.oneOfThree [Samples.lecture "n1" PENDING]).
  apply Forall_cons. split; [split; discriminate|apply Forall_nil_2].
Defined.

End StoreStatistics.

(** ** Further properties of saving and loading *)

Section PersistenceMore.
Import Statistics Store Sidebar Display Persistence.
Context `{HostDate}.

Implicit Types (e : CalendarEvent) (events l : list CalendarEvent).

(** The loop of [calculateStats] reads nothing but the status. *)
Lemma countAll_status_map (f : CalendarEvent -> CalendarEvent) l :
  (forall e, status (f e) = status e) -> countAll (f <$> l) = countAll l.
Proof.
  intros Hf. unfold countAll. generalize zero.
  induction l as [|e l IH]; intros c; [reflexivity|].
  rewrite fmap_cons. simpl fold_left.
  replace (tally c (f e)) with (tally c e); [apply IH|].
  unfold tally. rewrite Hf. reflexivity.
Qed.

(** The subject filter reads nothing but the title. *)
Lemma subset_title_map (f : CalendarEvent -> CalendarEvent) t l :
  (forall e, title (f e) = title e) -> subset t (f <$> l) = f <$> subset t l.
Proof.
  intros Hf. unfold subset. destruct (String.eqb t "All"); [reflexivity|].
  induction l as [|e l IH]; [reflexivity|].
  rewrite fmap_cons. simpl List.filter. rewrite Hf, IH.
  destruct (String.eqb (title e) t); reflexivity.
Qed.

(** X22. Saving and loading keeps the events in number and order, and every
    field that is not a date comes back with the value it had. *)
Theorem reload_plain_fields_all events :
  let plain e :=
    (id e, uid e, title e, location e, description e, status e,
     overrideTitle e, isOverride e, recurrenceId e) in
  length (load (save events)) = length events /\
  plain <$> load (save events) = plain <$> events.
Proof.
  cbn zeta. rewrite load_save. split; [apply length_fmap|].
  rewrite <- list_fmap_compose. apply list_fmap_ext. intros _ e _. reflexivity.
Qed.

(** X23. What the sidebar and the calendar cells show survives a reload: the
    statistics for every selection of the filter, the titles of the filter
    and the displayed title of every event. *)
Theorem reload_preserves_view events :
  (forall t, currentStats t (load (save events)) = currentStats t events) /\
  uniqueTitles (load (save events)) = uniqueTitles events /\
  displayTitle <$> load (save events) = displayTitle <$> events.
Proof.
  rewrite load_save. split; [|split].
  - intros t. unfold currentStats, calculateStats.
    rewrite subset_title_map by reflexivity.
    rewrite countAll_status_map by reflexivity. reflexivity.
  - unfold uniqueTitles. f_equal.
    change (map title ?l) with (title <$> l).
    rewrite <- list_fmap_compose. apply list_fmap_ext. intros _ e _. reflexivity.
  - rewrite <- list_fmap_compose. apply list_fmap_ext. intros _ e _. reflexivity.
Qed.

(** X24. Events with valid [start] and [end] dates that the host reads back, and
    without [originalDate], come back from a save and load exactly as they
    were. *)
Theorem reload_wellDated events :
  Forall wellDated events -> load (save events) = events.
Proof.
  intros Hall. rewrite load_save.
  induction Hall as [|e l He _ IH]; [reflexivity|].
  rewrite fmap_cons, IH. f_equal.
  destruct He as (ts & te & Hs & Hend & Hps & Hpe & Ho).
  destruct e as [i u ti st en lo de sta ot io ri od]. simpl in *. subst.
  unfold fixDates, stringify. simpl. rewrite Hps, Hpe. reflexivity.
Qed.

(** X25. A [start] or [end] that is an invalid date is written as [null] and
    read back as the epoch, 1970-01-01T00:00:00Z. *)
Theorem reload_invalid_date e :
  (start e = DateObj None -> start (fixDates (stringify e)) = DateObj (Some 0)) /\
  (end_ e = DateObj None -> end_ (fixDates (stringify e)) = DateObj (Some 0)).
Proof. split; intros Hd; simpl; rewrite Hd; reflexivity. Qed.

End PersistenceMore.

Section PersistenceInstances.
Import Persistence.

Lemma reload_wellDated_witness :
  @load Samples.tableHost (@save Samples.tableHost Samples.oneOfThree)
  = Samples.oneOfThree.
Proof.
  apply (@reload_wellDated Samples.tableHost Samples.oneOfThree).
  repeat (apply Forall_cons; split;
          [exists 1736154000000, 1736157600000; repeat split|]).
  apply Forall_nil_2.
Defined.

Lemma reload_invalid_date_witness :
  start (@fixDates Samples.tableHost (@stringify Samples.tableHost Samples.undatedLecture))
  = DateObj (Some 0).
Proof.
  apply (@reload_invalid_date Samples.tableHost Samples.undatedLecture).
  reflexivity.
Defined.

Lemma reload_originalDate_witness :
  exists d',
    originalDate
      (@fixDates Samples.tableHost (@stringify Samples.tableHost Samples.weeklyInstance))
    = Some d' /\ ~ isDate d'.
Proof.
  apply (@reload_originalDate Samples.tableHost Samples.weeklyInstance
           (DateObj (Some 1736154000000))).
  reflexivity.
Defined.

End PersistenceInstances.

(** ** Styles and counters *)

Section StyleFacts.
Import Statistics Display.

Implicit Types (st : AttendanceStatus).

Lemma named_cases st :
  st = SUSPENDED \/ st = EXCUSED \/ st = ATTENDED \/ st = ABSENT \/ st ∉ named.
Proof.
  destruct (decide (st ∈ named)) as [Hin|Hout]; [|tauto].
  unfold named in Hin. rewrite !elem_of_cons, elem_of_nil in Hin. tauto.
Qed.

Lemma statusStyle_other st :
  st ∉ named -> statusStyle st = "bg-blue-100 text-blue-700 border-blue-200".
Proof.
  intros Hout. unfold named in Hout.
  rewrite !not_elem_of_cons in Hout. destruct Hout as (Hs & He & Ha & Hb & _).
  unfold statusStyle.
  destruct (String.eqb_spec st ATTENDED); [contradiction|].
  destruct (String.eqb_spec st ABSENT); [contradiction|].
  destruct (String.eqb_spec st SUSPENDED); [contradiction|].
  destruct (String.eqb_spec st EXCUSED); [contradiction|]. reflexivity.
Qed.

(** X27. The calendar tells the events apart exactly as the counters do: two
    statuses get the same style if and only if they fall into the same
    counter of [calculateStats], that is, they are equal or both counted as
    pending. *)
Theorem statusStyle_classes st1 st2 :
  statusStyle st1 = statusStyle st2
  <-> st1 = st2 \/ ((st1 ∉ named) /\ (st2 ∉ named)).
Proof.
  split.
  - intros Heq.
    destruct (named_cases st1) as [->|[->|[->|[->|H1]]]];
      destruct (named_cases st2) as [->|[->|[->|[->|H2]]]];
      try (left; reflexivity); try (right; split; assumption);
      exfalso; revert Heq;
      rewrite ?(statusStyle_other _ H1), ?(statusStyle_other _ H2);
      vm_compute; discriminate.
  - intros [->|[H1 H2]]; [reflexivity|].
    rewrite (statusStyle_other _ H1), (statusStyle_other _ H2). reflexivity.
Qed.

End StyleFacts.
